(** * Quantum Revenue Engine: the revenue ledger of neural-mesh

    A shallow embedding of [src/revenue-engine/revenue_tracker.py] and the
    properties of its ledger operations.

    Reading of the source.  The file keeps the module header, the dataclasses
    and the start of [register_product] on lines 1-68; everything from the
    confirmation prints of [register_product] to the end of the module sits on
    line 69, with its line breaks and quotes written as escapes.  The
    definitions below follow the methods as they read once those escapes are
    undone.

    Modelling choices.
    - The engine object is a record, and every method is a computation in a
      state monad over it, the reporting methods like the mutating ones, so
      that "leaves the ledger unchanged" is a statement to prove and not an
      accident of typing.
    - [self.products] is a Python [dict]: an association list in insertion
      order, where assigning to a present key keeps the key's place.  The
      order is observable (order of summation, order of the portfolio
      listing).  Mutating the object stored under a key is an update of the
      entry.  [register_product] returns the record it stores; what a caller
      does to that object outside the methods is not modelled.
    - Python [int] is [Z].  Python [float] stays behind the interface
      [PyArith], with the operations the methods use: the four operations on
      floats, the conversion of an int operand, and [/] on two ints; [**]
      has an interface of its own, [PyPow].  Two implementations follow:
      IEEE binary64 on the kernel's primitive floats, which is what CPython
      computes with, and exact rationals.
    - The methods raise where CPython does: OverflowError for an int or a
      quotient of ints too large for a float, for a float power out of
      range and for a date beyond datetime's range (year 9999).  A method
      that can raise returns an [Outcome]; [calculate_churn_rate] and
      [calculate_ltv] raise before they store, [project_revenue] raises
      without a report, and [export_report] catches what its [try] block
      raises.
    - [datetime.utcnow()] is an input: a method that reads the clock takes the
      reading as its argument [now].  Dates and the formatting of numbers are
      interfaces as well ([PyClock], [PyFormat]), with [datetime] itself as
      one implementation of the clock.
    - [sum] adds from left to right starting at 0, as its documentation
      says.  (CPython 3.12 and later compensate the rounding errors of float
      items, which can change the last bits of a float sum.)
    - The [print] calls act on the console, not on the ledger, and are left
      out.  [export_report] runs over the ledger and a file system; the
      serializer and the file system are interfaces ([PyJson], [PyFiles])
      whose failure is an exception caught by the method. *)

From Stdlib Require Import ZArith List String Ascii Bool Lia Sorted.
From Stdlib Require Import QArith Qcanon DecimalString Floats.
Import ListNotations.

Local Open Scope Z_scope.
Local Open Scope string_scope.

(** ** Python dictionaries with string keys *)

Module PyDict.

Section Dict.

Variable V : Type.

Definition dict := list (string * V).

(** [d.get(k)] *)
Fixpoint get (k : string) (d : dict) : option V :=
  match d with
  | [] => None
  | (k', v) :: d' => if String.eqb k k' then Some v else get k d'
  end.

(** [k in d] *)
Definition contains (k : string) (d : dict) : bool :=
  match get k d with
  | Some _ => true
  | None => false
  end.

(** [d[k] = v]: a present key keeps its position, a new key goes last. *)
Fixpoint set (k : string) (v : V) (d : dict) : dict :=
  match d with
  | [] => [(k, v)]
  | (k', v') :: d' =>
      if String.eqb k k' then (k', v) :: d' else (k', v') :: set k v d'
  end.

(** [d[k].attr = x], the in-place mutation of the object stored under [k],
    given as the function [f] from the old object to the mutated one.
    Indexing an absent key raises KeyError in Python; every use in the engine
    stands behind a membership test, and the model leaves [d] as it is
    there. *)
Definition mutate (k : string) (f : V -> V) (d : dict) : dict :=
  match get k d with
  | Some v => set k (f v) d
  | None => d
  end.

(** [d.keys()], [d.values()], [len(d)] *)
Definition keys (d : dict) : list string := map fst d.
Definition values (d : dict) : list V := map snd d.
Definition len (d : dict) : Z := Z.of_nat (List.length d).

(** The representation invariant of a dictionary: no key twice. *)
Definition wf (d : dict) : Prop := NoDup (keys d).

(** The entries under the keys other than [k], in their order. *)
Definition others (k : string) (d : dict) : dict :=
  filter (fun kv => negb (String.eqb (fst kv) k)) d.

End Dict.

Arguments get {V} k d.
Arguments contains {V} k d.
Arguments set {V} k v d.
Arguments mutate {V} k f d.
Arguments keys {V} d.
Arguments values {V} d.
Arguments len {V} d.
Arguments wf {V} d.
Arguments others {V} k d.

End PyDict.

(** ** The state monad the methods run in *)

Definition State (S A : Type) : Type := S -> A * S.

Definition ret {S A : Type} (a : A) : State S A := fun s => (a, s).

Definition bind {S A B : Type} (m : State S A) (k : A -> State S B) : State S B :=
  fun s => let (a, s') := m s in k a s'.

Definition get_state {S : Type} : State S S := fun s => (s, s).

Definition put_state {S : Type} (s' : S) : State S unit := fun _ => (tt, s').

Definition result {S A : Type} (m : State S A) (s : S) : A := fst (m s).

Definition final {S A : Type} (m : State S A) (s : S) : S := snd (m s).

Declare Scope py_scope.
Delimit Scope py_scope with py.

Notation "x <- m ;; k" := (bind m (fun x => k))
  (at level 61, m at next level, right associativity) : py_scope.
Notation "m ;;; k" := (bind m (fun _ => k))
  (at level 61, right associativity) : py_scope.

(** ** Exceptions *)

(** The exceptions the engine's methods can raise. *)
Inductive PyException : Type :=
| OverflowError.

(** How a call ends: with a return value or with an exception. *)
Inductive Outcome (A : Type) : Type :=
| Returned (a : A)
| Raised (e : PyException).

Arguments Returned {A} a.
Arguments Raised {A} e.

(** An operation that raises gives no value; a sequence of operations stops
    at the first that raises. *)
Definition and_then {A B : Type} (x : option A) (k : A -> option B) : option B :=
  match x with
  | Some a => k a
  | None => None
  end.

Notation "x <-? m ;; k" := (and_then m (fun x => k))
  (at level 61, m at next level, right associativity) : py_scope.

(** [for x in xs: acc = body(acc, x)], where the body can raise: the loop
    ends at the first round that raises. *)
Fixpoint for_loop {A B : Type} (body : B -> A -> option B) (xs : list A) (acc : B)
  : option B :=
  match xs with
  | [] => Some acc
  | x :: xs' =>
      match body acc x with
      | Some acc' => for_loop body xs' acc'
      | None => None
      end
  end.

(** The value an outcome carries, if it is a return. *)
Definition returned {A : Type} (o : Outcome A) : option A :=
  match o with
  | Returned a => Some a
  | Raised _ => None
  end.

(** ** The interfaces to Python's numbers, formatting and clock *)

(** The float operations the engine uses.
    - [of_int] is the float of an int that the source writes as a literal or
      takes as a length ([0.0], [1], [12], [100], [len(self.products)]):
      an int within the float range.
    - [fadd], [fsub], [fmul], [fdiv] are the operations on two floats; they
      never raise (the engine divides by the literal 100 and by a length
      that is not 0).
    - [int_to_float] is the conversion of an int argument next to a float
      operand; it raises OverflowError, here [None], for an int beyond the
      float range.
    - [int_truediv] is [/] on two ints; it raises OverflowError, here
      [None], when the quotient is beyond the float range.  (The engine
      divides behind a test that the divisor is not 0.) *)
Class PyArith (F : Type) : Type := {
  of_int : Z -> F;
  fadd : F -> F -> F;
  fsub : F -> F -> F;
  fmul : F -> F -> F;
  fdiv : F -> F -> F;
  int_to_float : Z -> option F;
  int_truediv : Z -> Z -> option F
}.

(** [x ** n] for a float [x] and an int [n]; it raises OverflowError, here
    [None], when the power is beyond the float range.  (The engine raises to
    the powers 1, 2, ...) *)
Class PyPow (F : Type) : Type := {
  fpow : F -> Z -> option F
}.

(** [f"{x:,.2f}"], [f"{x:.2f}"] and [f"{x}"] *)
Class PyFormat (F : Type) : Type := {
  format_comma_2f : F -> string;
  format_2f : F -> string;
  format_str : F -> string
}.

(** [t + timedelta(days=n)] and [t.isoformat()].  The sum raises
    OverflowError, here [None], when the timedelta or the date is out of
    datetime's range. *)
Class PyClock (T : Type) : Type := {
  plus_days : T -> Z -> option T;
  isoformat : T -> string
}.

(** [range(lo, hi)] *)
Definition py_range (lo hi : Z) : list Z :=
  map (fun i => lo + Z.of_nat i) (seq 0 (Z.to_nat (hi - lo))).

(** [sum(xs)] for an addition [add] and the start value [start]: the items
    are added from left to right. *)
Definition py_sum_with {A : Type} (add : A -> A -> A) (start : A) (xs : list A) : A :=
  fold_left add xs start.

(** [xs.append(x)] *)
Definition list_append {A : Type} (xs : list A) (x : A) : list A := xs ++ [x].

(** ** The data model *)

(** [class RevenueStream(Enum)] *)
Inductive RevenueStream : Type :=
| SAAS_SUBSCRIPTION
| USAGE_BASED
| ENTERPRISE_LICENSE
| MARKETPLACE.

Section Engine.

Context {F T : Type}.
Context {arith : PyArith F} {power : PyPow F} {fmt : PyFormat F} {clock : PyClock T}.

(** [sum] over floats starts from the int [0]. *)
Definition py_sum (xs : list F) : F := py_sum_with fadd (of_int 0) xs.

Definition py_sum_int (xs : list Z) : Z := py_sum_with Z.add 0 xs.

(** [@dataclass class RevenueMetric] *)
Record RevenueMetric : Type := {
  stream_type : RevenueStream;
  amount : F;
  currency : string;
  timestamp : string;
  source_product : string
}.

(** [@dataclass class ProductRevenue] *)
Record ProductRevenue : Type := {
  product_id : string;
  product_name : string;
  pricing_tier_min : F;
  pricing_tier_max : F;
  monthly_recurring_revenue : F;
  active_customers : Z;
  churn_rate : F;
  lifetime_value : F;
  revenue_history : list RevenueMetric
}.

(** The attributes of [QuantumRevenueEngine] set by [__init__]. *)
Record QuantumRevenueEngine : Type := {
  products : PyDict.dict ProductRevenue;
  total_revenue_history : list RevenueMetric;
  created_at : T
}.

(** [__init__] *)
Definition init (now : T) : QuantumRevenueEngine :=
  {| products := []; total_revenue_history := []; created_at := now |}.

(** Attribute assignments. *)
Definition set_products (d : PyDict.dict ProductRevenue) (self : QuantumRevenueEngine)
  : QuantumRevenueEngine :=
  {| products := d;
     total_revenue_history := total_revenue_history self;
     created_at := created_at self |}.

Definition set_total_revenue_history (h : list RevenueMetric) (self : QuantumRevenueEngine)
  : QuantumRevenueEngine :=
  {| products := products self;
     total_revenue_history := h;
     created_at := created_at self |}.

Definition set_active_customers (n : Z) (p : ProductRevenue) : ProductRevenue :=
  {| product_id := product_id p;
     product_name := product_name p;
     pricing_tier_min := pricing_tier_min p;
     pricing_tier_max := pricing_tier_max p;
     monthly_recurring_revenue := monthly_recurring_revenue p;
     active_customers := n;
     churn_rate := churn_rate p;
     lifetime_value := lifetime_value p;
     revenue_history := revenue_history p |}.

Definition set_churn_rate (r : F) (p : ProductRevenue) : ProductRevenue :=
  {| product_id := product_id p;
     product_name := product_name p;
     pricing_tier_min := pricing_tier_min p;
     pricing_tier_max := pricing_tier_max p;
     monthly_recurring_revenue := monthly_recurring_revenue p;
     active_customers := active_customers p;
     churn_rate := r;
     lifetime_value := lifetime_value p;
     revenue_history := revenue_history p |}.

Definition set_lifetime_value (v : F) (p : ProductRevenue) : ProductRevenue :=
  {| product_id := product_id p;
     product_name := product_name p;
     pricing_tier_min := pricing_tier_min p;
     pricing_tier_max := pricing_tier_max p;
     monthly_recurring_revenue := monthly_recurring_revenue p;
     active_customers := active_customers p;
     churn_rate := churn_rate p;
     lifetime_value := v;
     revenue_history := revenue_history p |}.

(** [p.revenue_history.append(m)] *)
Definition append_revenue_history (m : RevenueMetric) (p : ProductRevenue) : ProductRevenue :=
  {| product_id := product_id p;
     product_name := product_name p;
     pricing_tier_min := pricing_tier_min p;
     pricing_tier_max := pricing_tier_max p;
     monthly_recurring_revenue := monthly_recurring_revenue p;
     active_customers := active_customers p;
     churn_rate := churn_rate p;
     lifetime_value := lifetime_value p;
     revenue_history := list_append (revenue_history p) m |}.

(** The dictionaries the reporting methods return. *)
Record ProductSummary : Type := {
  summary_product_id : string;
  summary_product_name : string;
  summary_target_mrr : F;
  summary_annual_run_rate : F;
  summary_active_customers : Z;
  summary_churn_rate : string;
  summary_lifetime_value : string;
  summary_total_recorded_revenue : string;
  summary_pricing_range : string
}.

Record PortfolioSummary : Type := {
  total_products : Z;
  total_mrr : string;
  total_arr : string;
  total_active_customers : Z;
  average_churn_rate : string;
  portfolio : list (option ProductSummary)
}.

Record Projection : Type := {
  month : Z;
  date : string;
  projected_mrr : string;
  projected_arr : string
}.

Record ProjectionReport : Type := {
  projection_period_months : Z;
  projections : list Projection
}.

(** ** The methods of [QuantumRevenueEngine] *)

Local Open Scope py_scope.

Definition Method : Type -> Type := State QuantumRevenueEngine.

(** The default values of the optional arguments. *)
Definition default_stream_type : RevenueStream := SAAS_SUBSCRIPTION.
Definition default_period_days : Z := 30.
Definition default_lifespan_months : Z := 24.
Definition default_months : Z := 12.

Definition register_product (product_id product_name : string)
  (pricing_min pricing_max target_mrr : F) : Method ProductRevenue :=
  let product :=
    {| product_id := product_id;
       product_name := product_name;
       pricing_tier_min := pricing_min;
       pricing_tier_max := pricing_max;
       monthly_recurring_revenue := target_mrr;
       active_customers := 0;
       churn_rate := of_int 0;
       lifetime_value := of_int 0;
       revenue_history := [] |} in
  self <- get_state ;;
  put_state (set_products (PyDict.set product_id product (products self)) self) ;;;
  ret product.

Definition record_transaction (now : T) (product_id : string) (amount : F)
  (stream_type : RevenueStream) : Method bool :=
  self <- get_state ;;
  if negb (PyDict.contains product_id (products self)) then ret false
  else
    let metric :=
      {| stream_type := stream_type;
         amount := amount;
         currency := "USD";
         timestamp := isoformat now;
         source_product := product_id |} in
    put_state (set_products
      (PyDict.mutate product_id (append_revenue_history metric) (products self)) self) ;;;
    self <- get_state ;;
    put_state (set_total_revenue_history
      (list_append (total_revenue_history self) metric) self) ;;;
    ret true.

Definition update_customer_count (product_id : string) (customer_count : Z) : Method bool :=
  self <- get_state ;;
  if negb (PyDict.contains product_id (products self)) then ret false
  else
    put_state (set_products
      (PyDict.mutate product_id (set_active_customers customer_count) (products self)) self) ;;;
    ret true.

(** [churned / previous_customers] raises when the quotient is beyond the
    float range: before the store. *)
Definition calculate_churn_rate (product_id : string)
  (previous_customers current_customers period_days : Z) : Method (Outcome F) :=
  if Z.eqb previous_customers 0 then ret (Returned (of_int 0))
  else
    let churned := Z.max 0 (previous_customers - current_customers) in
    match int_truediv churned previous_customers with
    | None => ret (Raised OverflowError)
    | Some quotient =>
        let churn_rate := fmul quotient (of_int 100) in
        self <- get_state ;;
        (if PyDict.contains product_id (products self)
         then put_state (set_products
                (PyDict.mutate product_id (set_churn_rate churn_rate) (products self)) self)
         else ret tt) ;;;
        ret (Returned churn_rate)
    end.

(** [avg_monthly_revenue * avg_customer_lifespan_months] raises when the
    int is beyond the float range: before the store. *)
Definition calculate_ltv (product_id : string) (avg_monthly_revenue : F)
  (avg_customer_lifespan_months : Z) : Method (Outcome F) :=
  match int_to_float avg_customer_lifespan_months with
  | None => ret (Raised OverflowError)
  | Some lifespan =>
      let ltv := fmul avg_monthly_revenue lifespan in
      self <- get_state ;;
      (if PyDict.contains product_id (products self)
       then put_state (set_products
              (PyDict.mutate product_id (set_lifetime_value ltv) (products self)) self)
       else ret tt) ;;;
      ret (Returned ltv)
  end.

(** The dictionary [get_product_summary] builds for the record [product]. *)
Definition product_summary (product : ProductRevenue) : ProductSummary :=
  let total_transactions := py_sum (map amount (revenue_history product)) in
  {| summary_product_id := product_id product;
     summary_product_name := product_name product;
     summary_target_mrr := monthly_recurring_revenue product;
     summary_annual_run_rate := fmul (monthly_recurring_revenue product) (of_int 12);
     summary_active_customers := active_customers product;
     summary_churn_rate := format_2f (churn_rate product) ++ "%";
     summary_lifetime_value := "$" ++ format_comma_2f (lifetime_value product);
     summary_total_recorded_revenue := "$" ++ format_comma_2f total_transactions;
     summary_pricing_range :=
       "$" ++ format_str (pricing_tier_min product) ++ " - $"
           ++ format_str (pricing_tier_max product) ++ "/month" |}.

Definition get_product_summary (product_id : string) : Method (option ProductSummary) :=
  self <- get_state ;;
  if negb (PyDict.contains product_id (products self)) then ret None
  else
    match PyDict.get product_id (products self) with
    | None => ret None
    | Some product => ret (Some (product_summary product))
    end.

(** [[f(x) for x in xs]] where [f] is a method call. *)
Fixpoint for_each {A B : Type} (f : A -> Method B) (xs : list A) : Method (list B) :=
  match xs with
  | [] => ret []
  | x :: xs' => y <- f x ;; ys <- for_each f xs' ;; ret (y :: ys)
  end.

Definition get_portfolio_summary : Method PortfolioSummary :=
  self <- get_state ;;
  let total_mrr := py_sum (map monthly_recurring_revenue (PyDict.values (products self))) in
  let total_arr := fmul total_mrr (of_int 12) in
  let total_customers := py_sum_int (map active_customers (PyDict.values (products self))) in
  let avg_churn :=
    if Z.ltb 0 (PyDict.len (products self))
    then fdiv (py_sum (map churn_rate (PyDict.values (products self))))
              (of_int (PyDict.len (products self)))
    else of_int 0 in
  let total_products := PyDict.len (products self) in
  portfolio <- for_each get_product_summary (PyDict.keys (products self)) ;;
  ret {| total_products := total_products;
         total_mrr := "$" ++ format_comma_2f total_mrr;
         total_arr := "$" ++ format_comma_2f total_arr;
         total_active_customers := total_customers;
         average_churn_rate := format_2f avg_churn ++ "%";
         portfolio := portfolio |}.

(** In each round of the outer loop the date is computed first and can
    raise; in each round of the inner loop the power can raise.  An
    exception leaves the method at once. *)
Definition project_revenue (now : T) (months : Z) : Method (Outcome ProjectionReport) :=
  self <- get_state ;;
  let current_date := now in
  let projections :=
    for_loop
      (fun projections month =>
         projection_date <-? plus_days current_date (30 * month) ;;
         total_projected <-?
           for_loop
             (fun total_projected product =>
                let churn_factor := fsub (of_int 1) (fdiv (churn_rate product) (of_int 100)) in
                power <-? fpow churn_factor month ;;
                let projected_mrr := fmul (monthly_recurring_revenue product) power in
                Some (fadd total_projected projected_mrr))
             (PyDict.values (products self)) (of_int 0) ;;
         Some (list_append projections
           {| month := month;
              date := isoformat projection_date;
              projected_mrr := "$" ++ format_comma_2f total_projected;
              projected_arr := "$" ++ format_comma_2f (fmul total_projected (of_int 12)) |}))
      (py_range 1 (months + 1)) [] in
  match projections with
  | None => ret (Raised OverflowError)
  | Some projections =>
      ret (Returned {| projection_period_months := months; projections := projections |})
  end.

(** ** Sequences of calls *)

(** A call of one of the methods that run on the ledger alone, with its
    arguments.  ([export_report] needs a file system as well; it leaves the
    ledger as it is.) *)
Inductive Call : Type :=
| RegisterProduct (product_id product_name : string) (pricing_min pricing_max target_mrr : F)
| RecordTransaction (now : T) (product_id : string) (amount : F) (stream_type : RevenueStream)
| UpdateCustomerCount (product_id : string) (customer_count : Z)
| CalculateChurnRate (product_id : string) (previous_customers current_customers period_days : Z)
| CalculateLtv (product_id : string) (avg_monthly_revenue : F) (avg_customer_lifespan_months : Z)
| GetProductSummary (product_id : string)
| GetPortfolioSummary
| ProjectRevenue (now : T) (months : Z).

(** The ledger a call leaves behind. *)
Definition after (c : Call) (self : QuantumRevenueEngine) : QuantumRevenueEngine :=
  match c with
  | RegisterProduct pid name pmin pmax target =>
      final (register_product pid name pmin pmax target) self
  | RecordTransaction now pid amt stream => final (record_transaction now pid amt stream) self
  | UpdateCustomerCount pid count => final (update_customer_count pid count) self
  | CalculateChurnRate pid previous current period =>
      final (calculate_churn_rate pid previous current period) self
  | CalculateLtv pid revenue lifespan => final (calculate_ltv pid revenue lifespan) self
  | GetProductSummary pid => final (get_product_summary pid) self
  | GetPortfolioSummary => final get_portfolio_summary self
  | ProjectRevenue now months => final (project_revenue now months) self
  end.

(** The ledgers that method calls lead to from a new engine. *)
Inductive reachable : QuantumRevenueEngine -> Prop :=
| reachable_init (now : T) : reachable (init now)
| reachable_call (c : Call) (self : QuantumRevenueEngine) :
    reachable self -> reachable (after c self).

(** What the methods maintain: no product id is registered twice, a record
    sits under its own [product_id], and every metric of a product's history
    names that product and is in the global history too. *)
Record ledger_invariant (self : QuantumRevenueEngine) : Prop := {
  keys_unique : PyDict.wf (products self);
  key_is_product_id :
    forall k p, PyDict.get k (products self) = Some p -> product_id p = k;
  history_is_logged :
    forall k p m, PyDict.get k (products self) = Some p -> In m (revenue_history p) ->
      source_product m = k /\ In m (total_revenue_history self)
}.

End Engine.

(** ** IEEE binary64: the floats CPython computes with *)

Module Binary64.

(** The binary64 nearest to the integer [n], ties to even, as sign, mantissa
    and exponent; an infinity when [n] is beyond the range. *)
Definition rounded_int (n : Z) : spec_float :=
  binary_normalize prec emax n 0 false.

(** The float of a literal or a length. *)
Definition literal (n : Z) : float := SF2Prim (rounded_int n).

(** A result that overflowed to an infinity is an OverflowError. *)
Definition within_range (x : spec_float) : option float :=
  match x with
  | S754_infinity _ => None
  | _ => Some (SF2Prim x)
  end.

(** [float(n)], as in [x * n] for a float [x]: OverflowError ("int too large
    to convert to float") when [n] rounds beyond the largest float. *)
Definition float_of_int (n : Z) : option float := within_range (rounded_int n).

(** The integer [n] as an unrounded operand of a division. *)
Definition exact_int (n : Z) : spec_float :=
  match n with
  | Z0 => S754_zero false
  | Zpos m => S754_finite false m 0
  | Zneg m => S754_finite true m 0
  end.

(** [a / b] on ints is the binary64 nearest to the quotient, whatever the
    size of [a] and [b]: OverflowError ("integer division result too large
    for a float") when that is beyond the largest float.  (A zero divisor
    raises ZeroDivisionError in CPython; the engine divides behind a test of
    the divisor, and the model gives no value there either.) *)
Definition true_divide (a b : Z) : option float :=
  if Z.eqb b 0 then None
  else within_range (SFdiv prec emax (exact_int a) (exact_int b)).

#[global] Instance binary64_arith : PyArith float := {
  of_int := literal;
  fadd := PrimFloat.add;
  fsub := PrimFloat.sub;
  fmul := PrimFloat.mul;
  fdiv := PrimFloat.div;
  int_to_float := float_of_int;
  int_truediv := true_divide
}.

(** [x ** n] on a float is CPython's [float_pow] over the C library's
    [pow], which IEEE 754 does not pin down to the last bit: the function is
    a parameter here. *)
Definition binary64_pow (python_pow : float -> Z -> option float) : PyPow float :=
  {| fpow := python_pow |}.

(** The float 1.0, as sign, mantissa and exponent. *)
Definition one_bits : spec_float := S754_finite false 4503599627370496 (-52).

(** A power function to run examples with: the product of [n] factors [x],
    inverted for a negative [n]; as in [float_pow], a finite [x] whose power
    is an infinity raises ("Numerical result out of range"), an infinite
    [x] does not.  The engine raises to the exponents 1, 2, ... only. *)
Definition repeated_product (x : float) (n : Z) : option float :=
  let power :=
    match n with
    | Z0 => 1%float
    | Zpos k => Pos.iter (PrimFloat.mul x) 1%float k
    | Zneg k => (1 / Pos.iter (PrimFloat.mul x) 1%float k)%float
    end in
  if andb (PrimFloat.is_infinity power) (negb (PrimFloat.is_infinity x))
  then None
  else Some power.

End Binary64.

(** ** Exact rationals: arithmetic without rounding *)

Module Exact.

Definition Qc_of_int (n : Z) : Qc := Q2Qc (inject_Z n).

(** A negative exponent inverts, as [**] does.  (For a zero base Python
    raises ZeroDivisionError there; the inverse of 0 in [Qc] is 0.) *)
Definition Qc_pow (x : Qc) (n : Z) : Qc :=
  match n with
  | Z0 => Q2Qc 1
  | Zpos p => Qcpower x (Pos.to_nat p)
  | Zneg p => Qcinv (Qcpower x (Pos.to_nat p))
  end.

(** No rational is out of range: nothing raises. *)
#[global] Instance exact_arith : PyArith Qc := {
  of_int := Qc_of_int;
  fadd := Qcplus;
  fsub := Qcminus;
  fmul := Qcmult;
  fdiv := Qcdiv;
  int_to_float := fun n => Some (Qc_of_int n);
  int_truediv := fun a b => Some (Qcdiv (Qc_of_int a) (Qc_of_int b))
}.

#[global] Instance exact_pow : PyPow Qc := {
  fpow := fun x n => Some (Qc_pow x n)
}.

(** The decimal digits of a natural number. *)
Definition decimal (n : Z) : string :=
  NilZero.string_of_uint (N.to_uint (Z.to_N n)).

(** [n] in decimal, padded with zeros on the left to [width] digits. *)
Definition decimal_padded (width : nat) (n : Z) : string :=
  let s := decimal n in
  string_of_list_ascii (repeat "0"%char (width - String.length s)) ++ s.

(** A comma after every third digit, on the reversed digits. *)
Fixpoint group3_rev (cs : list Ascii.ascii) (i : nat) : list Ascii.ascii :=
  match cs with
  | [] => []
  | c :: cs' =>
      match i with
      | 3%nat => ","%char :: c :: group3_rev cs' 1
      | _ => c :: group3_rev cs' (S i)
      end
  end.

Definition group_thousands (s : string) : string :=
  string_of_list_ascii (rev (group3_rev (rev (list_ascii_of_string s)) 0)).

(** [|q| * 100] rounded to an integer, ties to even. *)
Definition round_cents (q : Q) : Z :=
  let a := Z.abs (Qnum q) * 100 in
  let d := Zpos (Qden q) in
  let k := a / d in
  let r := a mod d in
  match 2 * r ?= d with
  | Gt => k + 1
  | Eq => if Z.even k then k else k + 1
  | Lt => k
  end.

Definition sign_of (q : Q) : string :=
  if Z.ltb (Qnum q) 0 then "-" else "".

(** [f"{q:.2f}"] and [f"{q:,.2f}"] *)
Definition fixed2 (group : string -> string) (q : Q) : string :=
  let c := round_cents q in
  sign_of q ++ group (decimal (c / 100)) ++ "." ++ decimal_padded 2 (c mod 100).

(** The least [k >= from] with [q * 10^k] an integer, looking at [fuel]
    candidates. *)
Fixpoint decimal_places (fuel : nat) (from : Z) (q : Q) : option Z :=
  match fuel with
  | O => None
  | S fuel' =>
      if Z.eqb ((Qnum q * 10 ^ from) mod Zpos (Qden q)) 0 then Some from
      else decimal_places fuel' (from + 1) q
  end.

(** [str(q)]: the decimal expansion with at least one place when it ends,
    and numerator/denominator when it does not (no float is such). *)
Definition plain (q : Q) : string :=
  match decimal_places (S (Z.to_nat (Z.log2 (Zpos (Qden q))))) 1 q with
  | Some k =>
      let a := Z.abs (Qnum q) * 10 ^ k / Zpos (Qden q) in
      sign_of q ++ decimal (a / 10 ^ k) ++ "." ++ decimal_padded (Z.to_nat k) (a mod 10 ^ k)
  | None => sign_of q ++ decimal (Z.abs (Qnum q)) ++ "/" ++ decimal (Zpos (Qden q))
  end.

#[global] Instance exact_format : PyFormat Qc := {
  format_comma_2f := fun x => fixed2 group_thousands (this x);
  format_2f := fun x => fixed2 (fun s => s) (this x);
  format_str := fun x => plain (this x)
}.

(** A clock for the examples in which the dates do not matter: it counts
    days without end and prints the count.  ([datetime], whose dates end
    with the year 9999, is in [Datetime] below.) *)
#[global] Instance day_clock : PyClock Z := {
  plus_days := fun t n => Some (t + n);
  isoformat := fun t => (if Z.ltb t 0 then "-" else "") ++ decimal (Z.abs t)
}.

End Exact.

(** ** Python's datetime *)

Module Datetime.

(** A [datetime]: the day as its proleptic Gregorian ordinal (day 1 is
    0001-01-01) and the time of day in microseconds. *)
Record t : Type := {
  ordinal : Z;
  microsecond_of_day : Z
}.

(** [date.min.toordinal()], [date.max.toordinal()] (9999-12-31) and the
    largest number of days of a [timedelta]. *)
Definition min_ordinal : Z := 1.
Definition max_ordinal : Z := 3652059.
Definition max_delta_days : Z := 999999999.

(** [d + timedelta(days=n)]: OverflowError when the timedelta cannot be
    built or the day leaves the range of dates. *)
Definition add_days (d : t) (n : Z) : option t :=
  if Z.ltb max_delta_days (Z.abs n) then None
  else
    let o := ordinal d + n in
    if andb (Z.leb min_ordinal o) (Z.leb o max_ordinal)
    then Some {| ordinal := o; microsecond_of_day := microsecond_of_day d |}
    else None.

(** The days before each month of a year that is not a leap year. *)
Definition days_before_month (month : Z) : Z :=
  nth (Z.to_nat month) [0; 0; 31; 59; 90; 120; 151; 181; 212; 243; 273; 304; 334] 0.

Definition days_in_month (month : Z) : Z :=
  nth (Z.to_nat month) [0; 31; 28; 31; 30; 31; 30; 31; 31; 30; 31; 30; 31] 0.

(** Year, month and day of an ordinal, by the steps of [datetime._ord2ymd]:
    400-year cycles, centuries, 4-year cycles, years, then the month from an
    estimate that is corrected when it is one too high. *)
Definition ord2ymd (o : Z) : Z * Z * Z :=
  let n := o - 1 in
  let n400 := n / 146097 in
  let n := n mod 146097 in
  let n100 := n / 36524 in
  let n := n mod 36524 in
  let n4 := n / 1461 in
  let n := n mod 1461 in
  let n1 := n / 365 in
  let n := n mod 365 in
  let year := n400 * 400 + 1 + n100 * 100 + n4 * 4 + n1 in
  if orb (Z.eqb n1 4) (Z.eqb n100 4) then (year - 1, 12, 31)
  else
    let leapyear := andb (Z.eqb n1 3) (orb (negb (Z.eqb n4 24)) (Z.eqb n100 3)) in
    let month := Z.shiftr (n + 50) 5 in
    let preceding :=
      days_before_month month + (if andb (Z.ltb 2 month) leapyear then 1 else 0) in
    if Z.ltb n preceding
    then
      let month := month - 1 in
      let preceding :=
        preceding - (days_in_month month + (if andb (Z.eqb month 2) leapyear then 1 else 0)) in
      (year, month, n - preceding + 1)
    else (year, month, n - preceding + 1).

(** [d.isoformat()]: [YYYY-MM-DDTHH:MM:SS], and [.ffffff] after it when the
    microseconds are not 0. *)
Definition iso (d : t) : string :=
  let '(year, month, day) := ord2ymd (ordinal d) in
  let us := microsecond_of_day d in
  let seconds := us / 1000000 in
  Exact.decimal_padded 4 year ++ "-" ++ Exact.decimal_padded 2 month ++ "-"
    ++ Exact.decimal_padded 2 day ++ "T"
    ++ Exact.decimal_padded 2 (seconds / 3600) ++ ":"
    ++ Exact.decimal_padded 2 (seconds / 60 mod 60) ++ ":"
    ++ Exact.decimal_padded 2 (seconds mod 60)
    ++ (if Z.eqb (us mod 1000000) 0 then ""
        else "." ++ Exact.decimal_padded 6 (us mod 1000000)).

#[global] Instance datetime_clock : PyClock t := {
  plus_days := add_days;
  isoformat := iso
}.

(** 2026-11-03 11:11:11.123456 *)
Definition example_now : t :=
  {| ordinal := 739923; microsecond_of_day := 40271123456 |}.

End Datetime.

(** ** The report export *)

(** [open(path, 'w')] and [f.write(text)] on a file system [FS]: the file
    system afterwards, and whether the two went through without an
    exception. *)
Class PyFiles (FS : Type) : Type := {
  write_text : FS -> string -> string -> FS * bool
}.

Section ReportExport.

Context {F T FS : Type}.
Context {arith : PyArith F} {power : PyPow F} {fmt : PyFormat F} {clock : PyClock T}.
Context {files : PyFiles FS}.

(** The dictionary [export_report] serializes. *)
Record Report : Type := {
  generated_at : string;
  portfolio_summary : @PortfolioSummary F;
  revenue_projections : ProjectionReport;
  report_products : PyDict.dict (@ProductRevenue F)
}.

(** [dataclasses.asdict(product)]: the fields of the record and, in turn, of
    the metrics in its history, copied into dictionaries. *)
Definition asdict (product : @ProductRevenue F) : @ProductRevenue F := product.

(** [json.dumps(report, indent=2, default=str)]: the text, or nothing when
    the serializer raises. *)
Class PyJson : Type := {
  json_dumps : Report -> option string
}.

Context {json : PyJson}.

(** The engine together with the file system it exports to. *)
Definition World : Type := @QuantumRevenueEngine F T * FS.

(** A method of the engine, run in the world. *)
Definition on_engine {A : Type} (m : Method A) : State World A :=
  fun w => let (a, self') := m (fst w) in (a, (self', snd w)).

(** [export_report].  The clock is read twice: for [generated_at] and, in
    [project_revenue], for the projection dates.  Every exception inside the
    [try] block ends in [return False]: one that [project_revenue] raises,
    one of the serializer, one of the file system. *)
Definition export_report (now_generated now_projected : T) (filepath : string)
  : State World bool :=
  (summary <- on_engine get_portfolio_summary ;;
   projected <- on_engine (project_revenue now_projected 12) ;;
   match projected with
   | Raised _ => ret false
   | Returned projections =>
       w <- get_state ;;
       let report :=
         {| generated_at := isoformat now_generated;
            portfolio_summary := summary;
            revenue_projections := projections;
            report_products :=
              map (fun item => (fst item, asdict (snd item))) (products (fst w)) |} in
       match json_dumps report with
       | None => ret false
       | Some report_json =>
           let (fs', written) := write_text (snd w) filepath report_json in
           put_state (fst w, fs') ;;;
           ret written
       end
   end)%py.

(** The report of a ledger, for a reading of the clock and the projections
    that [project_revenue] returned. *)
Definition report_of (self : @QuantumRevenueEngine F T) (now_generated : T)
  (projections : ProjectionReport) : Report :=
  {| generated_at := isoformat now_generated;
     portfolio_summary := result get_portfolio_summary self;
     revenue_projections := projections;
     report_products := products self |}.

End ReportExport.

(** ** Callers: sequences of calls and what they assign *)

Section Callers.

Context {F T : Type}.
Context {arith : PyArith F} {power : PyPow F} {fmt : PyFormat F} {clock : PyClock T}.

(** The ledger after a sequence of calls, first call first. *)
Definition after_all (cs : list (@Call F T)) (self : @QuantumRevenueEngine F T)
  : @QuantumRevenueEngine F T :=
  fold_left (fun s c => after c s) cs self.

(** One [record_transaction] for product [pid] per reading of the clock,
    amount and stream. *)
Definition record_calls (pid : string) (txs : list (T * F * RevenueStream))
  : list (@Call F T) :=
  map (fun tx => RecordTransaction (fst (fst tx)) pid (snd (fst tx)) (snd tx)) txs.

(** The metrics those calls create. *)
Definition recorded_metrics (pid : string) (txs : list (T * F * RevenueStream))
  : list (@RevenueMetric F) :=
  map (fun tx =>
         {| stream_type := snd tx;
            amount := snd (fst tx);
            currency := "USD";
            timestamp := isoformat (fst (fst tx));
            source_product := pid |}) txs.

(** Is the call a [register_product]? *)
Definition registers (c : @Call F T) : bool :=
  match c with
  | RegisterProduct _ _ _ _ _ => true
  | _ => false
  end.

(** Can the call change what [project_revenue] reads: target MRR and churn
    rate? *)
Definition touches_projection (c : @Call F T) : bool :=
  match c with
  | RegisterProduct _ _ _ _ _ => true
  | CalculateChurnRate _ _ _ _ => true
  | _ => false
  end.

(** The attributes of a product record that the computing and updating
    methods assign. *)
Inductive Attribute : Type :=
| ActiveCustomers
| ChurnRate
| LifetimeValue.

(** The product and attribute a call assigns, if it assigns one. *)
Definition assigns (c : @Call F T) : option (string * Attribute) :=
  match c with
  | UpdateCustomerCount pid _ => Some (pid, ActiveCustomers)
  | CalculateChurnRate pid previous _ _ =>
      if Z.eqb previous 0 then None else Some (pid, ChurnRate)
  | CalculateLtv pid _ _ => Some (pid, LifetimeValue)
  | _ => None
  end.

(** What such a call does to the record it is about: nothing when it
    raises. *)
Definition assignment (c : @Call F T) (p : @ProductRevenue F) : @ProductRevenue F :=
  match c with
  | UpdateCustomerCount _ count => set_active_customers count p
  | CalculateChurnRate _ previous current _ =>
      match int_truediv (Z.max 0 (previous - current)) previous with
      | Some quotient => set_churn_rate (fmul quotient (of_int 100)) p
      | None => p
      end
  | CalculateLtv _ revenue lifespan =>
      match int_to_float lifespan with
      | Some l => set_lifetime_value (fmul revenue l) p
      | None => p
      end
  | _ => p
  end.

(** The metrics of product [k] in a history. *)
Definition metrics_of (k : string) (h : list (@RevenueMetric F)) : list (@RevenueMetric F) :=
  filter (fun m => String.eqb (source_product m) k) h.

(** The ids a call leaves registered: the ones from before, in their order,
    and after them the id of a first registration. *)
Definition newly_registered (c : @Call F T) (self : @QuantumRevenueEngine F T)
  : list string :=
  match c with
  | RegisterProduct pid _ _ _ _ =>
      if PyDict.contains pid (products self) then [] else [pid]
  | _ => []
  end.

(** A product's history is the end of what the global history holds for
    that product. *)
Definition recent_history (self : @QuantumRevenueEngine F T) : Prop :=
  forall k p, PyDict.get k (products self) = Some p ->
    exists older, metrics_of k (total_revenue_history self) = (older ++ revenue_history p)%list.

End Callers.

(** ** Specifications in the words of the ledger's description *)

Section Specification.

Context {F T : Type}.
Context {arith : PyArith F} {power : PyPow F} {fmt : PyFormat F} {clock : PyClock T}.

(** The share of its customers that a product keeps per month:
    [1 - churn_rate/100]. *)
Definition spec_churn_factor (p : @ProductRevenue F) : F :=
  fsub (of_int 1) (fdiv (churn_rate p) (of_int 100)).

(** The projected MRR of one product in month [m]:
    [target_mrr * (1 - churn_rate/100) ** m]; no value when the power is
    beyond the float range. *)
Definition spec_projected_mrr_for_product (p : @ProductRevenue F) (m : Z) : option F :=
  option_map (fmul (monthly_recurring_revenue p)) (fpow (spec_churn_factor p) m).

(** The values of a list, when none is missing. *)
Fixpoint all_values {A : Type} (xs : list (option A)) : option (list A) :=
  match xs with
  | [] => Some []
  | x :: xs' =>
      match x, all_values xs' with
      | Some a, Some l => Some (a :: l)
      | _, _ => None
      end
  end.

(** The projected total of month [m]: the sum over all registered products,
    when each of them has a projected MRR. *)
Definition spec_projected_total (self : @QuantumRevenueEngine F T) (m : Z) : option F :=
  option_map py_sum
    (all_values (map (fun p => spec_projected_mrr_for_product p m)
                     (PyDict.values (products self)))).

(** The target MRR of the whole portfolio. *)
Definition spec_total_mrr (self : @QuantumRevenueEngine F T) : F :=
  py_sum (map monthly_recurring_revenue (PyDict.values (products self))).

(** The arithmetic mean of a list, and 0 for the empty list. *)
Definition spec_mean (xs : list F) : F :=
  match xs with
  | [] => of_int 0
  | _ => fdiv (py_sum xs) (of_int (Z.of_nat (List.length xs)))
  end.

(** The sum of a list of integers, as a recursion on the list. *)
Definition spec_sum_int (xs : list Z) : Z := fold_right Z.add 0 xs.

(** The RevenueMetric that [record_transaction] creates. *)
Definition new_metric (now : T) (pid : string) (amount : F) (stream : RevenueStream)
  : @RevenueMetric F :=
  {| stream_type := stream;
     amount := amount;
     currency := "USD";
     timestamp := isoformat now;
     source_product := pid |}.

(** The record that [register_product] creates. *)
Definition new_product (pid name : string) (pmin pmax target : F) : @ProductRevenue F :=
  {| product_id := pid;
     product_name := name;
     pricing_tier_min := pmin;
     pricing_tier_max := pmax;
     monthly_recurring_revenue := target;
     active_customers := 0;
     churn_rate := of_int 0;
     lifetime_value := of_int 0;
     revenue_history := [] |}.

(** The entry of month [m] for a projection date and a projected total. *)
Definition projection_of (m : Z) (projection_date : T) (total : F) : Projection :=
  {| month := m;
     date := isoformat projection_date;
     projected_mrr := "$" ++ format_comma_2f total;
     projected_arr := "$" ++ format_comma_2f (fmul total (of_int 12)) |}.

(** The entry [project_revenue] computes for month [m], when the date
    [now + 30 * m days] and the projected total exist. *)
Definition projection_entry (self : @QuantumRevenueEngine F T) (now : T) (m : Z)
  : option Projection :=
  match plus_days now (30 * m), spec_projected_total self m with
  | Some projection_date, Some total => Some (projection_of m projection_date total)
  | _, _ => None
  end.

(** Month [m] can be projected: its date is within datetime's range and
    every product's power is within the float range. *)
Definition projectable (self : @QuantumRevenueEngine F T) (now : T) (m : Z) : Prop :=
  plus_days now (30 * m) <> None /\
  forall p, In p (PyDict.values (products self)) -> fpow (spec_churn_factor p) m <> None.

(** The facts of float arithmetic behind "no churn, no decay": [0.0 / 100]
    is [0.0], [1 - 0.0] is [1.0], [1.0 ** n] is [1.0] for an exponent within
    the float range, and [x * 1.0] is [x]. *)
Class NoDecayLaws : Prop := {
  zero_div_hundred : fdiv (of_int 0) (of_int 100) = of_int 0;
  one_minus_zero : fsub (of_int 1) (of_int 0) = of_int 1;
  one_pow : forall n : Z, int_to_float n <> None -> fpow (of_int 1) n = Some (of_int 1);
  mul_one : forall x : F, fmul x (of_int 1) = x
}.

End Specification.

Arguments NoDecayLaws F {arith power}.

(** A ledger to evaluate the methods on: the two products of the module's
    own example run, with their customer counts, churn and lifetime value. *)
Definition example_ledger : @QuantumRevenueEngine Qc Z :=
  final
    (register_product "mesh-messenger" "Zero-Human Mesh Messenger"
       (Exact.Qc_of_int 9) (Exact.Qc_of_int 99) (Exact.Qc_of_int 14500) ;;;
     register_product "governance-platform" "Zero-Human AI Governance Platform"
       (Exact.Qc_of_int 299) (Exact.Qc_of_int 1999) (Exact.Qc_of_int 50000) ;;;
     update_customer_count "mesh-messenger" 2000 ;;;
     update_customer_count "governance-platform" 50 ;;;
     calculate_churn_rate "mesh-messenger" 2100 2000 default_period_days ;;;
     calculate_churn_rate "governance-platform" 52 50 default_period_days ;;;
     calculate_ltv "mesh-messenger" (Qcdiv (Exact.Qc_of_int 725) (Exact.Qc_of_int 10))
       default_lifespan_months ;;;
     calculate_ltv "governance-platform" (Exact.Qc_of_int 1000) default_lifespan_months)%py
    (init 0).

(** The two products of the example, registered at 2026-11-03
    11:11:11.123456 in an engine whose dates are [datetime]s. *)
Definition example_dated_ledger : @QuantumRevenueEngine Qc Datetime.t :=
  final
    (register_product "mesh-messenger" "Zero-Human Mesh Messenger"
       (Exact.Qc_of_int 9) (Exact.Qc_of_int 99) (Exact.Qc_of_int 14500) ;;;
     register_product "governance-platform" "Zero-Human AI Governance Platform"
       (Exact.Qc_of_int 299) (Exact.Qc_of_int 1999) (Exact.Qc_of_int 50000))%py
    (init Datetime.example_now).

(** A new engine on binary64 floats. *)
Definition example_float_ledger : @QuantumRevenueEngine float Z := init 0.

(** A product record on binary64 floats, with no churn. *)
Definition example_float_product : @ProductRevenue float :=
  {| product_id := "mesh-messenger";
     product_name := "Zero-Human Mesh Messenger";
     pricing_tier_min := 9%float;
     pricing_tier_max := 99%float;
     monthly_recurring_revenue := 14500.5%float;
     active_customers := 2000;
     churn_rate := 0%float;
     lifetime_value := 0%float;
     revenue_history := [] |}.

(** Three sales of the first product of the example ledger, a refund among
    them, and the ledger after them. *)
Definition example_sales : list (Z * Qc * RevenueStream) :=
  [(1, Exact.Qc_of_int 99, SAAS_SUBSCRIPTION);
   (2, Exact.Qc_of_int (-20), USAGE_BASED);
   (3, Qcdiv (Exact.Qc_of_int 725) (Exact.Qc_of_int 10), MARKETPLACE)].

Definition example_ledger_with_sales : @QuantumRevenueEngine Qc Z :=
  after_all (record_calls "mesh-messenger" example_sales) example_ledger.

(** The same ledger after the product is registered anew and sells once
    more. *)
Definition example_ledger_relaunched : @QuantumRevenueEngine Qc Z :=
  after_all
    [RegisterProduct "mesh-messenger" "Mesh Messenger 2" (Exact.Qc_of_int 19)
       (Exact.Qc_of_int 199) (Exact.Qc_of_int 20000);
     RecordTransaction 4 "mesh-messenger" (Exact.Qc_of_int 199) ENTERPRISE_LICENSE]
    example_ledger_with_sales.

(** A product record within the expected ranges: a target MRR that is not
    negative and a churn rate between 0 and 100. *)
Definition within_ranges (p : @ProductRevenue Qc) : Prop :=
  (Q2Qc 0 <= monthly_recurring_revenue p)%Qc /\
  (Q2Qc 0 <= churn_rate p)%Qc /\
  (churn_rate p <= Exact.Qc_of_int 100)%Qc.

(** ** Dictionaries *)

Section DictFacts.

Variable V : Type.
Implicit Types (d : PyDict.dict V) (k : string) (v : V).

Lemma dict_contains_true k d :
  PyDict.contains k d = true <-> exists v, PyDict.get k d = Some v.
Proof.
  unfold PyDict.contains. destruct (PyDict.get k d) as [v|].
  - split; [eauto | reflexivity].
  - split; [discriminate | intros [v H]; discriminate].
Qed.

Lemma dict_contains_false k d :
  PyDict.contains k d = false <-> PyDict.get k d = None.
Proof.
  unfold PyDict.contains. destruct (PyDict.get k d); split; congruence.
Qed.

Lemma dict_get_set_same k v d : PyDict.get k (PyDict.set k v d) = Some v.
Proof.
  induction d as [|[k' v'] d IH]; simpl.
  - now rewrite String.eqb_refl.
  - destruct (String.eqb k k') eqn:E; simpl; rewrite E; [reflexivity | exact IH].
Qed.

Lemma dict_get_set_other k k' v d :
  k' <> k -> PyDict.get k' (PyDict.set k v d) = PyDict.get k' d.
Proof.
  intros Hne. induction d as [|[k0 v0] d IH]; simpl.
  - apply String.eqb_neq in Hne. now rewrite Hne.
  - destruct (String.eqb k k0) eqn:E; simpl.
    + apply String.eqb_eq in E. subst k0.
      apply String.eqb_neq in Hne. now rewrite Hne.
    + now rewrite IH.
Qed.

Lemma dict_keys_set_present k v d :
  PyDict.contains k d = true -> PyDict.keys (PyDict.set k v d) = PyDict.keys d.
Proof.
  unfold PyDict.contains, PyDict.keys.
  induction d as [|[k' v'] d IH]; simpl; [discriminate|].
  destruct (String.eqb k k') eqn:E; simpl; [reflexivity|].
  intros H. now rewrite IH.
Qed.

Lemma dict_keys_set_absent k v d :
  PyDict.contains k d = false -> PyDict.keys (PyDict.set k v d) = (PyDict.keys d ++ [k])%list.
Proof.
  unfold PyDict.contains, PyDict.keys.
  induction d as [|[k' v'] d IH]; simpl; [reflexivity|].
  destruct (String.eqb k k') eqn:E; simpl; [discriminate|].
  intros H. now rewrite IH.
Qed.

Lemma dict_get_None_keys k d : PyDict.get k d = None <-> ~ In k (PyDict.keys d).
Proof.
  unfold PyDict.keys. induction d as [|[k' v'] d IH]; simpl.
  - tauto.
  - destruct (String.eqb k k') eqn:E.
    + apply String.eqb_eq in E. subst. split; [discriminate | tauto].
    + apply String.eqb_neq in E. rewrite IH. split; [intros H [H'|H']; congruence | tauto].
Qed.

(** Assignment keeps the invariant of a dictionary. *)
Lemma dict_wf_set k v d : PyDict.wf d -> PyDict.wf (PyDict.set k v d).
Proof.
  unfold PyDict.wf. intros Hwf.
  destruct (PyDict.contains k d) eqn:E.
  - now rewrite dict_keys_set_present.
  - rewrite dict_keys_set_absent by exact E.
    apply dict_contains_false, dict_get_None_keys in E.
    apply NoDup_app; [exact Hwf | constructor; [tauto | constructor] | ].
    intros x Hx [<-|[]]. contradiction.
Qed.

Lemma dict_get_mutate_same k f v d :
  PyDict.get k d = Some v -> PyDict.get k (PyDict.mutate k f d) = Some (f v).
Proof.
  intros H. unfold PyDict.mutate. rewrite H. apply dict_get_set_same.
Qed.

Lemma dict_get_mutate_other k k' f d :
  k' <> k -> PyDict.get k' (PyDict.mutate k f d) = PyDict.get k' d.
Proof.
  intros H. unfold PyDict.mutate.
  destruct (PyDict.get k d); [now apply dict_get_set_other | reflexivity].
Qed.

Lemma dict_mutate_absent k f d : PyDict.get k d = None -> PyDict.mutate k f d = d.
Proof. intros H. unfold PyDict.mutate. now rewrite H. Qed.

Lemma dict_wf_mutate k f d : PyDict.wf d -> PyDict.wf (PyDict.mutate k f d).
Proof.
  intros H. unfold PyDict.mutate.
  destruct (PyDict.get k d); [now apply dict_wf_set | exact H].
Qed.

Lemma dict_others_set k v d :
  PyDict.others k (PyDict.set k v d) = PyDict.others k d.
Proof.
  unfold PyDict.others. induction d as [|[k' v'] d IH]; simpl.
  - now rewrite String.eqb_refl.
  - destruct (String.eqb k k') eqn:E; simpl.
    + rewrite String.eqb_sym, E. reflexivity.
    + rewrite String.eqb_sym, E. simpl. now rewrite IH.
Qed.

End DictFacts.


(** ** The methods, run from an arbitrary ledger *)

Section Runs.

Context {F T : Type}.
Context {arith : PyArith F} {power : PyPow F} {fmt : PyFormat F} {clock : PyClock T}.
Implicit Types (self : @QuantumRevenueEngine F T) (p : @ProductRevenue F).

Ltac run :=
  unfold result, final, bind, get_state, put_state, ret; cbn [fst snd].

Lemma register_product_run self pid name pmin pmax target :
  register_product pid name pmin pmax target self =
  (new_product pid name pmin pmax target,
   set_products (PyDict.set pid (new_product pid name pmin pmax target) (products self)) self).
Proof. reflexivity. Qed.

Lemma record_transaction_run self now pid amount stream :
  record_transaction now pid amount stream self =
  match PyDict.get pid (products self) with
  | None => (false, self)
  | Some p =>
      (true,
       set_total_revenue_history
         (total_revenue_history self ++ [new_metric now pid amount stream])
         (set_products
            (PyDict.set pid (append_revenue_history (new_metric now pid amount stream) p)
               (products self)) self))
  end.
Proof.
  unfold record_transaction, PyDict.contains, PyDict.mutate. run.
  destruct (PyDict.get pid (products self)); reflexivity.
Qed.

Lemma update_customer_count_run self pid count :
  update_customer_count pid count self =
  match PyDict.get pid (products self) with
  | None => (false, self)
  | Some p =>
      (true, set_products (PyDict.set pid (set_active_customers count p) (products self)) self)
  end.
Proof.
  unfold update_customer_count, PyDict.contains, PyDict.mutate. run.
  destruct (PyDict.get pid (products self)); reflexivity.
Qed.

Lemma calculate_churn_rate_run self pid previous current period :
  calculate_churn_rate pid previous current period self =
  if Z.eqb previous 0 then (Returned (of_int 0), self)
  else
    match int_truediv (Z.max 0 (previous - current)) previous with
    | None => (Raised OverflowError, self)
    | Some quotient =>
        let rate := fmul quotient (of_int 100) in
        (Returned rate,
         match PyDict.get pid (products self) with
         | None => self
         | Some p => set_products (PyDict.set pid (set_churn_rate rate p) (products self)) self
         end)
    end.
Proof.
  unfold calculate_churn_rate, PyDict.contains, PyDict.mutate.
  destruct (Z.eqb previous 0); [reflexivity|].
  destruct (int_truediv _ previous); [|reflexivity]. run.
  destruct (PyDict.get pid (products self)); reflexivity.
Qed.

Lemma calculate_ltv_run self pid revenue lifespan :
  calculate_ltv pid revenue lifespan self =
  match int_to_float lifespan with
  | None => (Raised OverflowError, self)
  | Some l =>
      let ltv := fmul revenue l in
      (Returned ltv,
       match PyDict.get pid (products self) with
       | None => self
       | Some p => set_products (PyDict.set pid (set_lifetime_value ltv p) (products self)) self
       end)
  end.
Proof.
  unfold calculate_ltv, PyDict.contains, PyDict.mutate.
  destruct (int_to_float lifespan); [|reflexivity]. run.
  destruct (PyDict.get pid (products self)); reflexivity.
Qed.

(** What the two calculations leave: the ledger they found, or that ledger
    with one attribute of the registered product assigned. *)
Lemma calculate_churn_rate_leaves self pid previous current period :
  final (calculate_churn_rate pid previous current period) self = self \/
  exists rate p,
    PyDict.get pid (products self) = Some p /\
    final (calculate_churn_rate pid previous current period) self =
    set_products (PyDict.set pid (set_churn_rate rate p) (products self)) self.
Proof.
  unfold final. rewrite calculate_churn_rate_run.
  destruct (Z.eqb previous 0); [now left|].
  destruct (int_truediv _ previous) as [quotient|]; [|now left]. cbn [snd].
  destruct (PyDict.get pid (products self)) as [p|]; [|now left].
  right. now exists (fmul quotient (of_int 100)), p.
Qed.

Lemma calculate_ltv_leaves self pid revenue lifespan :
  final (calculate_ltv pid revenue lifespan) self = self \/
  exists ltv p,
    PyDict.get pid (products self) = Some p /\
    final (calculate_ltv pid revenue lifespan) self =
    set_products (PyDict.set pid (set_lifetime_value ltv p) (products self)) self.
Proof.
  unfold final. rewrite calculate_ltv_run.
  destruct (int_to_float lifespan) as [months|]; [|now left]. cbn [snd].
  destruct (PyDict.get pid (products self)) as [p|]; [|now left].
  right. now exists (fmul revenue months), p.
Qed.

Lemma get_product_summary_run self pid :
  get_product_summary pid self =
  (option_map product_summary (PyDict.get pid (products self)), self).
Proof.
  unfold get_product_summary, PyDict.contains. run.
  destruct (PyDict.get pid (products self)); reflexivity.
Qed.

(** A listing by a method that leaves the ledger alone leaves it alone. *)
Lemma for_each_pure {A B : Type} (f : A -> Method B) (g : A -> QuantumRevenueEngine -> B)
  (xs : list A) self :
  (forall x s, f x s = (g x s, s)) ->
  for_each f xs self = (map (fun x => g x self) xs, self).
Proof.
  intros Hf. induction xs as [|x xs IH]; simpl; [reflexivity|].
  unfold bind. rewrite Hf, IH. reflexivity.
Qed.

End Runs.

(** ** Loops, ranges and sums *)

Lemma py_range_length lo hi : List.length (py_range lo hi) = Z.to_nat (hi - lo).
Proof. unfold py_range. now rewrite length_map, length_seq. Qed.

Lemma py_range_nth_error lo hi i :
  (i < Z.to_nat (hi - lo))%nat ->
  nth_error (py_range lo hi) i = Some (lo + Z.of_nat i).
Proof.
  intros Hi. unfold py_range. rewrite nth_error_map, nth_error_seq.
  apply Nat.ltb_lt in Hi. now rewrite Hi.
Qed.

Lemma py_range_In lo hi m : In m (py_range lo hi) <-> lo <= m < hi.
Proof.
  unfold py_range. rewrite in_map_iff. split.
  - intros [i [<- Hi]]. apply in_seq in Hi. lia.
  - intros H. exists (Z.to_nat (m - lo)). split; [lia|]. apply in_seq. lia.
Qed.

Lemma seq_shift_sorted (lo : Z) (len start : nat) :
  StronglySorted Z.lt (map (fun i => lo + Z.of_nat i) (seq start len)).
Proof.
  revert start. induction len as [|len IH]; intros start; simpl; constructor.
  - apply IH.
  - apply Forall_forall. intros x Hx. apply in_map_iff in Hx.
    destruct Hx as [i [<- Hi]]. apply in_seq in Hi. lia.
Qed.

Lemma py_range_sorted lo hi : StronglySorted Z.lt (py_range lo hi).
Proof. apply seq_shift_sorted. Qed.

(** A loop that appends one item per round builds the list of the items. *)
Lemma append_loop {A B : Type} (f : A -> B) (xs : list A) (acc : list B) :
  fold_left (fun acc x => list_append acc (f x)) xs acc = (acc ++ map f xs)%list.
Proof.
  revert acc. induction xs as [|x xs IH]; intros acc; simpl.
  - now rewrite app_nil_r.
  - rewrite IH. unfold list_append. now rewrite <- app_assoc.
Qed.

(** A loop that adds one term per round computes the sum of the terms. *)
Lemma accumulate_loop {A B : Type} (add : B -> B -> B) (f : A -> B) (xs : list A) (start : B) :
  fold_left (fun acc x => add acc (f x)) xs start = py_sum_with add start (map f xs).
Proof.
  unfold py_sum_with. revert start.
  induction xs as [|x xs IH]; intros start; simpl; [reflexivity | apply IH].
Qed.

(** The values of a list are all there unless one is missing. *)
Lemma all_values_map {A B : Type} (f : A -> option B) (g : A -> B) (xs : list A) :
  (forall x, In x xs -> f x = Some (g x)) ->
  all_values (map f xs) = Some (map g xs).
Proof.
  induction xs as [|x xs IH]; intros H; simpl; [reflexivity|].
  rewrite (H x (or_introl eq_refl)), IH; [reflexivity|].
  intros y Hy. apply H. now right.
Qed.

Lemma all_values_missing {A B : Type} (f : A -> option B) (xs : list A) (x : A) :
  In x xs -> f x = None -> all_values (map f xs) = None.
Proof.
  induction xs as [|y xs IH]; intros Hin Hx; simpl; [contradiction|].
  destruct Hin as [-> | Hin].
  - now rewrite Hx.
  - rewrite (IH Hin Hx). now destruct (f y).
Qed.

Lemma all_values_present {A B : Type} (f : A -> option B) (xs : list A) (l : list B) :
  all_values (map f xs) = Some l -> forall x, In x xs -> f x <> None.
Proof.
  intros H x Hin Hx. now rewrite (all_values_missing f xs x Hin Hx) in H.
Qed.

Lemma all_values_defined {A B : Type} (f : A -> option B) (xs : list A) :
  (forall x, In x xs -> f x <> None) ->
  exists l, all_values (map f xs) = Some l /\ map Some l = map f xs.
Proof.
  induction xs as [|x xs IH]; intros H; simpl.
  - now exists [].
  - destruct IH as [l [Hl Hmap]]; [intros y Hy; apply H; now right|].
    destruct (f x) as [b|] eqn:Hx; [|now destruct (H x (or_introl eq_refl))].
    exists (b :: l). rewrite Hl. simpl. now rewrite Hmap.
Qed.

(** A loop whose rounds can raise ends with the fold over the values of its
    rounds when each round has one, and raises when one has none. *)
Lemma for_loop_values {A B C : Type} (step : B -> C -> B) (f : A -> option C)
  (xs : list A) (acc : B) :
  for_loop (fun acc x => option_map (step acc) (f x)) xs acc =
  option_map (fun l => fold_left step l acc) (all_values (map f xs)).
Proof.
  revert acc. induction xs as [|x xs IH]; intros acc; simpl; [reflexivity|].
  destruct (f x) as [c|]; simpl; [|reflexivity].
  rewrite IH. now destruct (all_values (map f xs)).
Qed.

Lemma for_loop_ext {A B : Type} (body body' : B -> A -> option B) (xs : list A) (acc : B) :
  (forall acc x, body acc x = body' acc x) ->
  for_loop body xs acc = for_loop body' xs acc.
Proof.
  intros H. revert acc. induction xs as [|x xs IH]; intros acc; simpl; [reflexivity|].
  rewrite H. destruct (body' acc x); [apply IH | reflexivity].
Qed.

Lemma append_fold {B : Type} (l acc : list B) :
  fold_left list_append l acc = (acc ++ l)%list.
Proof.
  revert acc. induction l as [|x l IH]; intros acc; simpl.
  - now rewrite app_nil_r.
  - rewrite IH. unfold list_append. now rewrite <- app_assoc.
Qed.

Lemma py_sum_int_spec xs : py_sum_int xs = spec_sum_int xs.
Proof.
  unfold py_sum_int, py_sum_with, spec_sum_int.
  apply fold_symmetric; intros; lia.
Qed.

Section Reports.

Local Open Scope py_scope.

Context {F T : Type}.
Context {arith : PyArith F} {power : PyPow F} {fmt : PyFormat F} {clock : PyClock T}.
Implicit Types (self : @QuantumRevenueEngine F T) (p : @ProductRevenue F).

(** The inner loop of [project_revenue]: the projected total of a month. *)
Lemma projected_total_loop self m :
  for_loop
    (fun total_projected product =>
       let churn_factor :=
         fsub (of_int 1) (fdiv (churn_rate product) (of_int 100)) in
       power <-? fpow churn_factor m ;;
       let projected_mrr := fmul (monthly_recurring_revenue product) power in
       Some (fadd total_projected projected_mrr))
    (PyDict.values (products self)) (of_int 0) =
  spec_projected_total self m.
Proof.
  unfold spec_projected_total, py_sum, py_sum_with.
  rewrite <- (for_loop_values fadd (fun p => spec_projected_mrr_for_product p m)).
  apply for_loop_ext. intros acc p.
  unfold spec_projected_mrr_for_product, spec_churn_factor, and_then.
  now destruct (fpow _ m).
Qed.

Lemma project_revenue_run self now months :
  project_revenue now months self =
  (match all_values (map (projection_entry self now) (py_range 1 (months + 1))) with
   | Some entries =>
       Returned {| projection_period_months := months; projections := entries |}
   | None => Raised OverflowError
   end, self).
Proof.
  unfold project_revenue, bind, get_state, ret. cbv zeta.
  rewrite (for_loop_ext _
             (fun acc m => option_map (list_append acc) (projection_entry self now m))).
  - rewrite for_loop_values.
    destruct (all_values _) as [entries|]; simpl; [|reflexivity].
    now rewrite append_fold.
  - intros acc m. rewrite projected_total_loop.
    unfold projection_entry, projection_of, and_then.
    destruct (plus_days now (30 * m)); [|reflexivity].
    now destruct (spec_projected_total self m).
Qed.

(** A month can be projected when its entry exists. *)
Lemma projectable_entry self now m :
  projectable self now m ->
  exists projection_date total,
    plus_days now (30 * m) = Some projection_date /\
    spec_projected_total self m = Some total /\
    projection_entry self now m = Some (projection_of m projection_date total).
Proof.
  intros [Hdate Hpow]. unfold projection_entry, spec_projected_total.
  destruct (plus_days now (30 * m)) as [d|]; [|now destruct Hdate].
  destruct (all_values_defined (fun p => spec_projected_mrr_for_product p m)
              (PyDict.values (products self))) as [l [Hl _]].
  { intros p Hp. unfold spec_projected_mrr_for_product.
    specialize (Hpow p Hp). now destruct (fpow (spec_churn_factor p) m). }
  rewrite Hl. simpl. now exists d, (py_sum l).
Qed.

Lemma entry_projectable self now m e :
  projection_entry self now m = Some e -> projectable self now m.
Proof.
  unfold projection_entry, spec_projected_total, projectable. intros H.
  destruct (plus_days now (30 * m)) as [d|]; [|discriminate].
  split; [discriminate|].
  destruct (all_values _) as [l|] eqn:Hl; [|discriminate].
  intros p Hp Hpow.
  apply (all_values_present _ _ _ Hl p Hp).
  unfold spec_projected_mrr_for_product. now rewrite Hpow.
Qed.

Lemma not_projectable_entry self now m :
  ~ projectable self now m -> projection_entry self now m = None.
Proof.
  intros H. destruct (projection_entry self now m) as [e|] eqn:He; [|reflexivity].
  destruct H. exact (entry_projectable _ _ _ _ He).
Qed.

(** [project_revenue] returns when every month of the period can be
    projected, and raises when one of them cannot. *)
Lemma project_revenue_returns self now months :
  (forall m, 1 <= m <= months -> projectable self now m) ->
  exists entries,
    project_revenue now months self =
      (Returned {| projection_period_months := months; projections := entries |}, self) /\
    map Some entries = map (projection_entry self now) (py_range 1 (months + 1)).
Proof.
  intros H. rewrite project_revenue_run.
  destruct (all_values_defined (projection_entry self now) (py_range 1 (months + 1)))
    as [entries [Hentries Hmap]].
  - intros m Hm. apply py_range_In in Hm.
    destruct (projectable_entry self now m) as [d [t [_ [_ He]]]]; [apply H; lia|].
    now rewrite He.
  - exists entries. now rewrite Hentries.
Qed.

Lemma project_revenue_raises self now months m :
  1 <= m <= months ->
  projection_entry self now m = None ->
  project_revenue now months self = (Raised OverflowError, self).
Proof.
  intros Hm He. rewrite project_revenue_run.
  rewrite (all_values_missing (projection_entry self now) _ m); [reflexivity| |exact He].
  apply py_range_In. lia.
Qed.

Lemma project_revenue_returned self now months report :
  result (project_revenue now months) self = Returned report ->
  projection_period_months report = months /\
  map Some (projections report) = map (projection_entry self now) (py_range 1 (months + 1)).
Proof.
  unfold result. rewrite project_revenue_run. cbn [fst].
  destruct (all_values _) as [entries|] eqn:Hentries; [|discriminate].
  intros [= <-]. split; [reflexivity|]. cbn [projections].
  destruct (all_values_defined (projection_entry self now) (py_range 1 (months + 1)))
    as [entries' [Hentries' Hmap]].
  - exact (all_values_present _ _ _ Hentries).
  - rewrite Hentries in Hentries'. now injection Hentries' as <-.
Qed.

(** The entry at position [m - 1] of a returned report is the entry of
    month [m]. *)
Lemma project_revenue_entry self now months report m :
  result (project_revenue now months) self = Returned report ->
  1 <= m <= months ->
  exists e,
    nth_error (projections report) (Z.to_nat (m - 1)) = Some e /\
    projection_entry self now m = Some e.
Proof.
  intros Hreport Hm.
  destruct (project_revenue_returned self now months report Hreport) as [_ Hmap].
  assert (Hnth : nth_error (map Some (projections report)) (Z.to_nat (m - 1)) =
                 Some (projection_entry self now m)).
  { rewrite Hmap, nth_error_map, py_range_nth_error by lia.
    replace (1 + Z.of_nat (Z.to_nat (m - 1))) with m by lia. reflexivity. }
  rewrite nth_error_map in Hnth.
  destruct (nth_error (projections report) (Z.to_nat (m - 1))) as [e|]; [|discriminate].
  exists e. split; [reflexivity|]. now injection Hnth as <-.
Qed.

(** The entries for a list of months carry these months, in their order. *)
Lemma entries_months self now (entries : list Projection) (months : list Z) :
  map Some entries = map (projection_entry self now) months ->
  map month entries = months.
Proof.
  revert months. induction entries as [|e entries IH]; intros [|m months] H;
    try discriminate; [reflexivity|].
  simpl in H. injection H as He H. simpl. rewrite (IH _ H). f_equal.
  unfold projection_entry in He.
  destruct (plus_days now (30 * m)); [|discriminate].
  destruct (spec_projected_total self m); [|discriminate].
  now injection He as ->.
Qed.

(** The average [get_portfolio_summary] reports is the mean of the
    churn rates. *)
Lemma average_is_mean (d : PyDict.dict (@ProductRevenue F)) :
  (if Z.ltb 0 (PyDict.len d)
   then fdiv (py_sum (map churn_rate (PyDict.values d))) (of_int (PyDict.len d))
   else of_int 0) =
  spec_mean (map churn_rate (PyDict.values d)).
Proof.
  unfold PyDict.len, PyDict.values, spec_mean.
  destruct d as [|kv d]; [reflexivity|].
  replace (Z.ltb 0 (Z.of_nat (List.length (kv :: d)))) with true
    by (symmetry; apply Z.ltb_lt; simpl; lia).
  now rewrite !length_map.
Qed.

Lemma get_portfolio_summary_run self :
  get_portfolio_summary self =
  ({| total_products := PyDict.len (products self);
      total_mrr := "$" ++ format_comma_2f (spec_total_mrr self);
      total_arr := "$" ++ format_comma_2f (fmul (spec_total_mrr self) (of_int 12));
      total_active_customers :=
        py_sum_int (map active_customers (PyDict.values (products self)));
      average_churn_rate :=
        format_2f (spec_mean (map churn_rate (PyDict.values (products self)))) ++ "%";
      portfolio :=
        map (fun k => option_map product_summary (PyDict.get k (products self)))
            (PyDict.keys (products self)) |}, self).
Proof.
  unfold get_portfolio_summary, bind, get_state, ret.
  rewrite (for_each_pure get_product_summary
             (fun k s => option_map product_summary (PyDict.get k (products s))))
    by (intros; apply get_product_summary_run).
  now rewrite average_is_mean.
Qed.

End Reports.

(** ** No churn, no decay *)

Lemma no_churn_no_decay {F : Type} {arith : PyArith F} {power : PyPow F}
  (laws : NoDecayLaws F) (p : @ProductRevenue F) (m : Z) :
  churn_rate p = of_int 0 ->
  int_to_float m <> None ->
  spec_projected_mrr_for_product p m = Some (monthly_recurring_revenue p).
Proof.
  intros Hchurn Hm. unfold spec_projected_mrr_for_product, spec_churn_factor.
  rewrite Hchurn, zero_div_hundred, one_minus_zero, (one_pow m Hm). simpl.
  now rewrite mul_one.
Qed.

Lemma Prim2SF_one : Prim2SF 1 = Binary64.one_bits.
Proof. vm_compute. reflexivity. Qed.

(** Multiplying a binary64 number by 1.0 rounds to the number itself: the
    product of the mantissas is the mantissa shifted by 52 bits, which the
    rounding shifts back without losing a bit. *)
Lemma SFmul_one_r (s : spec_float) :
  valid_binary s = true -> SF64mul s Binary64.one_bits = s.
Proof.
  destruct s as [sx|sx| |sx mx ex]; simpl; intros Hvalid.
  - now rewrite xorb_false_r.
  - now rewrite xorb_false_r.
  - reflexivity.
  - unfold bounded, canonical_mantissa in Hvalid.
    apply andb_prop in Hvalid. destruct Hvalid as [Hcanon Hle].
    apply Z.eqb_eq in Hcanon.
    rewrite xorb_false_r, Pos.mul_comm. cbn [Pos.mul].
    unfold binary_round_aux, shr_fexp. cbn [Zdigits2 digits2_pos].
    match goal with
    | |- context [shr ?r ?e ?n] => replace n with 52
    end.
    2:{ unfold fexp, prec, emax, SpecFloat.emin in *. lia. }
    cbn [shr iter_pos shr_1 shr_record_of_loc orb shr_m shr_r shr_s
         loc_of_shr_record round_nearest_even].
    replace (ex + -52 + 52) with ex by lia.
    cbn [Zdigits2]. rewrite Hcanon, Z.sub_diag.
    cbn [shr shr_record_of_loc shr_m]. now rewrite Hle.
Qed.

Lemma binary64_mul_one (x : float) : (x * 1)%float = x.
Proof.
  apply Prim2SF_inj. rewrite mul_spec, Prim2SF_one.
  apply SFmul_one_r, Prim2SF_valid.
Qed.

(** Binary64 floats satisfy the laws of "no churn, no decay" with any [pow]
    that gives [1.0 ** n = 1.0] for the exponents within the float range, as
    C99 and CPython's [float_pow] do. *)
Lemma binary64_no_decay (python_pow : float -> Z -> option float) :
  (forall n : Z, Binary64.float_of_int n <> None -> python_pow 1%float n = Some 1%float) ->
  @NoDecayLaws float Binary64.binary64_arith (Binary64.binary64_pow python_pow).
Proof.
  intros Hpow. split.
  - vm_compute. reflexivity.
  - vm_compute. reflexivity.
  - intros n Hn. exact (Hpow n Hn).
  - intros x. exact (binary64_mul_one x).
Qed.

(** Exact rationals satisfy the laws of "no churn, no decay". *)
Lemma exact_no_decay : NoDecayLaws Qc.
Proof.
  split.
  - apply Qc_is_canon. reflexivity.
  - apply Qc_is_canon. reflexivity.
  - intros n _. change (Some (Exact.Qc_pow 1%Qc n) = Some 1%Qc). f_equal.
    destruct n as [|n|n]; simpl.
    + reflexivity.
    + apply Qcpower_1.
    + rewrite Qcpower_1. apply Qc_is_canon. reflexivity.
  - intros x. apply Qcmult_1_r.
Qed.

(** ** The properties of the ledger *)

Section Claims.

Context {F T : Type}.
Context {arith : PyArith F} {power : PyPow F} {fmt : PyFormat F} {clock : PyClock T}.
Implicit Types (self : @QuantumRevenueEngine F T) (p : @ProductRevenue F).
Implicit Types (pid name : string) (now : T).

(** C1 (amended). For [months >= 1] such that every month [m] of 1..months
    can be projected (the date [now + 30 * m days] is within datetime's
    range and every product's power [(1 - churn_rate/100) ** m] is within the
    float range), [project_revenue(months)] returns exactly [months]
    entries; the entry at position [m - 1] carries month index [m], so the
    indices run 1..months and are strictly increasing; its projected MRR is
    (the currency string of) the sum over all registered products of
    [target_mrr * (1 - churn_rate/100) ** m] and its projected ARR that of
    the sum times 12.  When a month of 1..months cannot be projected, the
    call raises OverflowError and returns no entry.  A product whose churn
    rate is 0 contributes its target MRR, unchanged, to every month whose
    index is within the float range: under the four facts of float
    arithmetic in [NoDecayLaws], and so on binary64 floats, where they hold
    for every [pow] with [1.0 ** n = 1.0]. *)
Theorem project_revenue_projects_each_month self now months :
  1 <= months ->
  ((forall m, 1 <= m <= months -> projectable self now m) ->
   exists report,
     result (project_revenue now months) self = Returned report /\
     projection_period_months report = months /\
     Z.of_nat (List.length (projections report)) = months /\
     (forall m, 1 <= m <= months ->
        exists projection_date total,
          plus_days now (30 * m) = Some projection_date /\
          spec_projected_total self m = Some total /\
          nth_error (projections report) (Z.to_nat (m - 1)) =
          Some {| month := m;
                  date := isoformat projection_date;
                  projected_mrr := "$" ++ format_comma_2f total;
                  projected_arr := "$" ++ format_comma_2f (fmul total (of_int 12)) |}) /\
     map month (projections report) = py_range 1 (months + 1) /\
     StronglySorted Z.lt (map month (projections report))) /\
  (forall m, 1 <= m <= months -> ~ projectable self now m ->
     project_revenue now months self = (Raised OverflowError, self)) /\
  (NoDecayLaws F ->
   forall p m, churn_rate p = of_int 0 -> int_to_float m <> None ->
     spec_projected_mrr_for_product p m = Some (monthly_recurring_revenue p)) /\
  (forall (python_pow : float -> Z -> option float) (q : @ProductRevenue float) (m : Z),
     (forall n : Z, Binary64.float_of_int n <> None -> python_pow 1%float n = Some 1%float) ->
     churn_rate q = 0%float ->
     Binary64.float_of_int m <> None ->
     @spec_projected_mrr_for_product float Binary64.binary64_arith
        (Binary64.binary64_pow python_pow) q m = Some (monthly_recurring_revenue q)).
Proof.
  intros Hmonths. split; [|split; [|split]].
  - intros Hall.
    destruct (project_revenue_returns self now months Hall) as [entries [Hrun Hmap]].
    pose proof (entries_months self now entries _ Hmap) as Hmonth.
    exists {| projection_period_months := months; projections := entries |}.
    unfold result. rewrite Hrun. cbn [fst projections projection_period_months].
    split; [reflexivity|]. split; [reflexivity|]. split; [|split; [|split]].
    + rewrite <- (length_map month), Hmonth, py_range_length. lia.
    + intros m Hm.
      destruct (projectable_entry self now m (Hall m Hm)) as [d [t [Hd [Ht He]]]].
      exists d, t. split; [exact Hd|]. split; [exact Ht|].
      assert (Hnth : nth_error (map Some entries) (Z.to_nat (m - 1)) =
                     Some (Some (projection_of m d t))).
      { rewrite Hmap, nth_error_map, py_range_nth_error by lia.
        replace (1 + Z.of_nat (Z.to_nat (m - 1))) with m by lia. simpl. now rewrite He. }
      rewrite nth_error_map in Hnth.
      destruct (nth_error entries (Z.to_nat (m - 1))); [|discriminate].
      now injection Hnth as ->.
    + exact Hmonth.
    + rewrite Hmonth. apply py_range_sorted.
  - intros m Hm Hnot.
    apply (project_revenue_raises self now months m Hm).
    now apply not_projectable_entry.
  - intros laws p m Hchurn Hm. now apply no_churn_no_decay.
  - intros python_pow q m Hpow Hchurn Hm.
    apply (@no_churn_no_decay float _ _ (binary64_no_decay python_pow Hpow)).
    + exact Hchurn.
    + exact Hm.
Qed.

(** C2 (amended). [calculate_churn_rate] returns 0 when [previous_customers]
    is 0; otherwise, when the quotient [max(0, previous - current) /
    previous] is within the float range, it returns the quotient times 100,
    and when the quotient is beyond the float range it raises OverflowError
    and leaves the ledger as it was; on binary64 floats, previous 2100 and
    current 2000 give [(100/2100)*100]. *)
Theorem calculate_churn_rate_value self pid previous current period :
  (previous = 0 ->
   result (calculate_churn_rate pid previous current period) self = Returned (of_int 0)) /\
  (previous <> 0 ->
   forall quotient,
     int_truediv (Z.max 0 (previous - current)) previous = Some quotient ->
     result (calculate_churn_rate pid previous current period) self =
     Returned (fmul quotient (of_int 100))) /\
  (previous <> 0 ->
   int_truediv (Z.max 0 (previous - current)) previous = None ->
   calculate_churn_rate pid previous current period self = (Raised OverflowError, self)) /\
  (forall ledger : @QuantumRevenueEngine float T,
   result (calculate_churn_rate pid 2100 2000 period) ledger =
   Returned (100 / 2100 * 100)%float).
Proof.
  unfold result. repeat split.
  - intros ->. reflexivity.
  - intros Hne quotient Hquotient. rewrite calculate_churn_rate_run.
    apply Z.eqb_neq in Hne. now rewrite Hne, Hquotient.
  - intros Hne Hquotient. rewrite calculate_churn_rate_run.
    apply Z.eqb_neq in Hne. now rewrite Hne, Hquotient.
  - intros ledger. rewrite calculate_churn_rate_run. cbn [Z.eqb].
    replace (int_truediv (Z.max 0 (2100 - 2000)) 2100) with (Some (100 / 2100)%float)
      by (vm_compute; reflexivity).
    cbn [fst]. apply f_equal. vm_compute. reflexivity.
Qed.

(** C3. [record_transaction] on a product id absent from the mapping returns
    false and leaves the whole ledger as it was; on a present id it returns
    true and appends one new RevenueMetric, carrying the amount as given, to
    that product's history and to the global history, nothing else
    changing. *)
Theorem record_transaction_absent_or_appended self now pid (amt : F) stream :
  (PyDict.get pid (products self) = None ->
   record_transaction now pid amt stream self = (false, self)) /\
  (forall p, PyDict.get pid (products self) = Some p ->
   let metric := new_metric now pid amt stream in
   let self' := final (record_transaction now pid amt stream) self in
   result (record_transaction now pid amt stream) self = true /\
   amount metric = amt /\
   PyDict.get pid (products self') = Some (append_revenue_history metric p) /\
   revenue_history (append_revenue_history metric p) = (revenue_history p ++ [metric])%list /\
   total_revenue_history self' = (total_revenue_history self ++ [metric])%list /\
   List.length (total_revenue_history self') = S (List.length (total_revenue_history self)) /\
   (forall k, k <> pid -> PyDict.get k (products self') = PyDict.get k (products self)) /\
   PyDict.keys (products self') = PyDict.keys (products self) /\
   created_at self' = created_at self).
Proof.
  split.
  - intros Habsent. rewrite record_transaction_run. now rewrite Habsent.
  - intros p Hpresent metric self'. subst metric self'.
    unfold result, final. rewrite record_transaction_run, Hpresent. cbn.
    repeat split.
    + apply dict_get_set_same.
    + rewrite length_app. simpl. lia.
    + intros k Hk. now apply dict_get_set_other.
    + apply dict_keys_set_present. apply dict_contains_true. eauto.
Qed.


(** C5. [register_product] installs under [product_id] the record it
    returns: the arguments as given, [active_customers] 0, [churn_rate] 0,
    [lifetime_value] 0 and an empty [revenue_history], whatever was
    registered under that id before.  So a product that is registered, has a
    transaction recorded and is registered again has a history of length 1
    before the second registration and of length 0 after it. *)
Theorem register_product_installs_fresh_record self pid name (pmin pmax target : F) :
  let product := result (register_product pid name pmin pmax target) self in
  let self' := final (register_product pid name pmin pmax target) self in
  PyDict.get pid (products self') = Some product /\
  product_id product = pid /\
  product_name product = name /\
  pricing_tier_min product = pmin /\
  pricing_tier_max product = pmax /\
  monthly_recurring_revenue product = target /\
  active_customers product = 0 /\
  churn_rate product = of_int 0 /\
  lifetime_value product = of_int 0 /\
  revenue_history product = [] /\
  (forall now amt stream name' (pmin' pmax' target' : F),
     let recorded := final (record_transaction now pid amt stream) self' in
     let again := final (register_product pid name' pmin' pmax' target') recorded in
     option_map (fun p => List.length (revenue_history p)) (PyDict.get pid (products recorded))
       = Some 1%nat /\
     option_map (fun p => List.length (revenue_history p)) (PyDict.get pid (products again))
       = Some 0%nat).
Proof.
  intros product self'. subst product self'. unfold result, final.
  rewrite register_product_run. cbn [fst snd products set_products].
  split; [apply dict_get_set_same|].
  repeat split.
  - rewrite record_transaction_run. cbn [products set_products].
    rewrite dict_get_set_same. cbn [snd products set_products set_total_revenue_history].
    now rewrite dict_get_set_same.
  - rewrite register_product_run. cbn [snd products set_products].
    now rewrite dict_get_set_same.
Qed.

(** C6 (amended). When [avg_customer_lifespan_months] converts to a float,
    [calculate_ltv] returns [avg_monthly_revenue *
    avg_customer_lifespan_months] for every product id (on binary64 floats,
    72.50 * 24 is 1740.0); for a registered id the value becomes that
    product's [lifetime_value] and nothing else changes; for an unregistered
    id the value is returned all the same and the ledger stays as it was.
    When the lifespan is beyond the float range, the call raises
    OverflowError and leaves the ledger as it was. *)
Theorem calculate_ltv_value_and_store self pid (revenue : F) lifespan :
  let self' := final (calculate_ltv pid revenue lifespan) self in
  (forall months : F, int_to_float lifespan = Some months ->
     result (calculate_ltv pid revenue lifespan) self = Returned (fmul revenue months) /\
     (forall p, PyDict.get pid (products self) = Some p ->
        PyDict.get pid (products self') = Some (set_lifetime_value (fmul revenue months) p) /\
        lifetime_value (set_lifetime_value (fmul revenue months) p) = fmul revenue months /\
        (forall k, k <> pid -> PyDict.get k (products self') = PyDict.get k (products self)) /\
        total_revenue_history self' = total_revenue_history self) /\
     (PyDict.get pid (products self) = None -> self' = self)) /\
  (int_to_float lifespan = None ->
   calculate_ltv pid revenue lifespan self = (Raised OverflowError, self)) /\
  (forall ledger : @QuantumRevenueEngine float T,
     result (calculate_ltv pid 72.5%float 24) ledger = Returned 1740%float).
Proof.
  intros self'. subst self'. unfold result, final.
  rewrite calculate_ltv_run.
  split; [|split].
  - intros months Hmonths. rewrite Hmonths. cbn [fst snd].
    split; [reflexivity|]. split.
    + intros p Hpresent. rewrite Hpresent. cbn. repeat split.
      * apply dict_get_set_same.
      * intros k Hk. now apply dict_get_set_other.
    + intros Habsent. now rewrite Habsent.
  - intros Hmonths. now rewrite Hmonths.
  - intros ledger. rewrite calculate_ltv_run.
    replace (int_to_float 24) with (Some 24%float) by (vm_compute; reflexivity).
    cbn [fst]. apply f_equal. vm_compute. reflexivity.
Qed.

(** C7. Two calls of [calculate_churn_rate] that differ only in
    [period_days] return the same value and leave the same ledger. *)
Theorem calculate_churn_rate_ignores_period_days self pid previous current period period' :
  calculate_churn_rate pid previous current period self =
  calculate_churn_rate pid previous current period' self.
Proof.
  rewrite (calculate_churn_rate_run self pid previous current period).
  rewrite (calculate_churn_rate_run self pid previous current period').
  reflexivity.
Qed.

(** C8. [project_revenue] leaves the ledger as it found it: the product
    mapping with every record in it, the global history and the creation
    time. *)
Theorem project_revenue_leaves_ledger self now months :
  let self' := final (project_revenue now months) self in
  self' = self /\
  products self' = products self /\
  (forall k, PyDict.get k (products self') = PyDict.get k (products self)) /\
  total_revenue_history self' = total_revenue_history self /\
  created_at self' = created_at self.
Proof.
  intros self'. subst self'. unfold final.
  rewrite project_revenue_run. cbn [snd]. repeat split.
Qed.

(** C9. With [previous_customers] 0, [calculate_churn_rate] returns 0 and
    leaves the ledger as it was, for a registered product id too: the record
    under that id, its [churn_rate] included, is the one from before. *)
Theorem calculate_churn_rate_zero_previous_no_store self pid current period :
  calculate_churn_rate pid 0 current period self = (Returned (of_int 0), self) /\
  (forall p, PyDict.get pid (products self) = Some p ->
     PyDict.get pid (products (final (calculate_churn_rate pid 0 current period) self)) = Some p).
Proof. split; [reflexivity | intros p Hp; exact Hp]. Qed.

(** C10. [register_product] changes the entry of the product mapping under
    the given id and nothing else: the global history and the creation time
    are as before, and so are the entries under all other ids, in their
    order.  So when a transaction is recorded for a registered product and
    the product is registered again, the metric is still the last one of the
    global history, while the product's own history is empty. *)
Theorem register_product_frame self pid name (pmin pmax target : F) :
  let self' := final (register_product pid name pmin pmax target) self in
  total_revenue_history self' = total_revenue_history self /\
  created_at self' = created_at self /\
  (forall k, k <> pid -> PyDict.get k (products self') = PyDict.get k (products self)) /\
  PyDict.others pid (products self') = PyDict.others pid (products self) /\
  (forall now amt stream p, PyDict.get pid (products self) = Some p ->
     let recorded := final (record_transaction now pid amt stream) self in
     let again := final (register_product pid name pmin pmax target) recorded in
     total_revenue_history again =
       (total_revenue_history self ++ [new_metric now pid amt stream])%list /\
     option_map revenue_history (PyDict.get pid (products again)) = Some []).
Proof.
  intros self'. subst self'. unfold final.
  rewrite register_product_run. cbn [snd products set_products total_revenue_history created_at].
  split; [reflexivity|]. split; [reflexivity|]. split; [|split].
  - intros k Hk. now apply dict_get_set_other.
  - apply dict_others_set.
  - intros now amt stream p Hpresent.
    rewrite register_product_run, record_transaction_run, Hpresent.
    cbn [snd products set_products total_revenue_history set_total_revenue_history].
    split; [reflexivity|]. now rewrite dict_get_set_same.
Qed.

End Claims.

(** ** Further properties of the methods *)

Section Further.

Context {F T : Type}.
Context {arith : PyArith F} {power : PyPow F} {fmt : PyFormat F} {clock : PyClock T}.
Implicit Types (self : @QuantumRevenueEngine F T) (p : @ProductRevenue F).
Implicit Types (pid name : string) (now : T).

(** X1. [update_customer_count] on an unregistered id returns false and
    leaves the ledger as it was; on a registered id it returns true and
    overwrites [active_customers] with the count given, whatever it was,
    nothing else changing. *)
Theorem update_customer_count_overwrites self pid count :
  (PyDict.get pid (products self) = None ->
   update_customer_count pid count self = (false, self)) /\
  (forall p, PyDict.get pid (products self) = Some p ->
   let self' := final (update_customer_count pid count) self in
   result (update_customer_count pid count) self = true /\
   PyDict.get pid (products self') = Some (set_active_customers count p) /\
   active_customers (set_active_customers count p) = count /\
   (forall k, k <> pid -> PyDict.get k (products self') = PyDict.get k (products self)) /\
   total_revenue_history self' = total_revenue_history self).
Proof.
  split.
  - intros Habsent. rewrite update_customer_count_run. now rewrite Habsent.
  - intros p Hpresent self'. subst self'.
    unfold result, final. rewrite update_customer_count_run, Hpresent. cbn.
    repeat split.
    + apply dict_get_set_same.
    + intros k Hk. now apply dict_get_set_other.
Qed.

(** X2. With [previous_customers] other than 0, a call of
    [calculate_churn_rate] that returns stores the rate it returns as the
    [churn_rate] of a registered product, nothing else changing, and leaves
    the ledger as it was for an unregistered id; a call that raises leaves
    the ledger as it was. *)
Theorem calculate_churn_rate_stores self pid previous current period :
  previous <> 0 ->
  let self' := final (calculate_churn_rate pid previous current period) self in
  (forall rate : F,
     result (calculate_churn_rate pid previous current period) self = Returned rate ->
     (forall p, PyDict.get pid (products self) = Some p ->
        PyDict.get pid (products self') = Some (set_churn_rate rate p) /\
        churn_rate (set_churn_rate rate p) = rate /\
        (forall k, k <> pid -> PyDict.get k (products self') = PyDict.get k (products self)) /\
        total_revenue_history self' = total_revenue_history self) /\
     (PyDict.get pid (products self) = None -> self' = self)) /\
  (forall e,
     result (calculate_churn_rate pid previous current period) self = Raised e ->
     self' = self).
Proof.
  intros Hne self'. subst self'. unfold result, final.
  rewrite calculate_churn_rate_run.
  apply Z.eqb_neq in Hne. rewrite Hne.
  destruct (int_truediv _ previous) as [quotient|]; cbn [fst snd].
  - split; [|discriminate].
    intros rate [= <-]. split.
    + intros p Hpresent. rewrite Hpresent. cbn. repeat split.
      * apply dict_get_set_same.
      * intros k Hk. now apply dict_get_set_other.
    + intros Habsent. now rewrite Habsent.
  - split; [discriminate | reflexivity].
Qed.

(** X3. [get_product_summary] returns nothing for an unregistered id and
    leaves the ledger as it was; right after [register_product] it reports
    the registered target MRR and 12 times that as the annual run rate. *)
Theorem get_product_summary_after_register self pid name (pmin pmax target : F) :
  let registered := final (register_product pid name pmin pmax target) self in
  (PyDict.get pid (products self) = None -> result (get_product_summary pid) self = None) /\
  final (get_product_summary pid) self = self /\
  option_map (fun s => (summary_target_mrr s, summary_annual_run_rate s))
    (result (get_product_summary pid) registered) = Some (target, fmul target (of_int 12)).
Proof.
  intros registered. subst registered. unfold result, final.
  rewrite !get_product_summary_run, register_product_run. cbn [fst snd products set_products].
  repeat split.
  - intros Habsent. now rewrite Habsent.
  - now rewrite dict_get_set_same.
Qed.

(** X4. [get_portfolio_summary] leaves the ledger as it was, counts the
    registered products and lists the summary of each, in the order of the
    product mapping. *)
Theorem get_portfolio_summary_listing self :
  final get_portfolio_summary self = self /\
  total_products (result get_portfolio_summary self) =
    Z.of_nat (List.length (products self)) /\
  portfolio (result get_portfolio_summary self) =
    map (fun k => option_map product_summary (PyDict.get k (products self)))
        (PyDict.keys (products self)).
Proof.
  unfold result, final. rewrite get_portfolio_summary_run. repeat split.
Qed.

Lemma invariant_update self self' k (v : @ProductRevenue F) :
  ledger_invariant self ->
  products self' = PyDict.set k v (products self) ->
  product_id v = k ->
  (forall m, In m (total_revenue_history self) -> In m (total_revenue_history self')) ->
  (forall m, In m (revenue_history v) ->
     source_product m = k /\ In m (total_revenue_history self')) ->
  ledger_invariant self'.
Proof.
  intros [Hwf Hkey Hlog] Hproducts Hid Hkeep Hhistory. split.
  - rewrite Hproducts. now apply dict_wf_set.
  - intros k' p. rewrite Hproducts.
    destruct (string_dec k' k) as [->|Hk].
    + rewrite dict_get_set_same. now intros [= <-].
    + rewrite dict_get_set_other by exact Hk. apply Hkey.
  - intros k' p m. rewrite Hproducts.
    destruct (string_dec k' k) as [->|Hk].
    + rewrite dict_get_set_same. intros [= <-]. apply Hhistory.
    + rewrite dict_get_set_other by exact Hk. intros Hget Hin.
      destruct (Hlog k' p m Hget Hin) as [Hsrc Hold]. split; [exact Hsrc | now apply Hkeep].
Qed.

Lemma invariant_after (c : Call) self :
  ledger_invariant self -> ledger_invariant (after c self).
Proof.
  intros Hinv.
  destruct c as [pid name pmin pmax target | now pid amt stream | pid count
                | pid previous current period | pid revenue lifespan | pid | | now months];
    unfold after, final.
  - rewrite register_product_run. cbn [snd].
    apply (invariant_update self _ pid (new_product pid name pmin pmax target) Hinv);
      [reflexivity | reflexivity | now intros | intros m []].
  - rewrite record_transaction_run.
    destruct (PyDict.get pid (products self)) as [p|] eqn:Hget; [|exact Hinv]. cbn [snd].
    apply (invariant_update self _ pid
             (append_revenue_history (new_metric now pid amt stream) p) Hinv).
    + reflexivity.
    + exact (key_is_product_id self Hinv pid p Hget).
    + intros m Hm. cbn. apply in_or_app. now left.
    + intros m Hm. cbn in Hm |- *. unfold list_append in Hm.
      apply in_app_or in Hm. destruct Hm as [Hm|[<-|[]]].
      * destruct (history_is_logged self Hinv pid p m Hget Hm) as [Hsrc Hold].
        split; [exact Hsrc | apply in_or_app; now left].
      * split; [reflexivity | apply in_or_app; right; now left].
  - rewrite update_customer_count_run.
    destruct (PyDict.get pid (products self)) as [p|] eqn:Hget; [|exact Hinv]. cbn [snd].
    apply (invariant_update self _ pid (set_active_customers count p) Hinv).
    + reflexivity.
    + exact (key_is_product_id self Hinv pid p Hget).
    + now intros.
    + intros m Hm. exact (history_is_logged self Hinv pid p m Hget Hm).
  - fold (final (calculate_churn_rate pid previous current period) self).
    destruct (calculate_churn_rate_leaves self pid previous current period)
      as [-> | [rate [p [Hget ->]]]]; [exact Hinv|].
    apply (invariant_update self _ pid (set_churn_rate rate p) Hinv).
    + reflexivity.
    + exact (key_is_product_id self Hinv pid p Hget).
    + now intros.
    + intros m Hm. exact (history_is_logged self Hinv pid p m Hget Hm).
  - fold (final (calculate_ltv pid revenue lifespan) self).
    destruct (calculate_ltv_leaves self pid revenue lifespan)
      as [-> | [ltv [p [Hget ->]]]]; [exact Hinv|].
    apply (invariant_update self _ pid (set_lifetime_value ltv p) Hinv).
    + reflexivity.
    + exact (key_is_product_id self Hinv pid p Hget).
    + now intros.
    + intros m Hm. exact (history_is_logged self Hinv pid p m Hget Hm).
  - now rewrite get_product_summary_run.
  - now rewrite get_portfolio_summary_run.
  - now rewrite project_revenue_run.
Qed.

(** X5. In every ledger that method calls lead to from a new engine, no
    product id is registered twice, every record sits under its own
    [product_id], and every metric in a product's history names that product
    as its source and is in the global history as well. *)
Theorem reachable_ledger_invariant self : reachable self -> ledger_invariant self.
Proof.
  induction 1 as [now | c self Hreach IH].
  - split; cbn.
    + constructor.
    + discriminate.
    + discriminate.
  - now apply invariant_after.
Qed.

(** X6. The global history is append-only: a call of any method leaves the
    history it found, followed by at most one new metric. *)
Theorem global_history_append_only (c : Call) self :
  exists suffix,
    total_revenue_history (after c self) = (total_revenue_history self ++ suffix)%list /\
    (List.length suffix <= 1)%nat.
Proof.
  destruct c as [pid name pmin pmax target | now pid amt stream | pid count
                | pid previous current period | pid revenue lifespan | pid | | now months];
    unfold after, final.
  - exists []. rewrite register_product_run, app_nil_r. split; [reflexivity | simpl; lia].
  - rewrite record_transaction_run.
    destruct (PyDict.get pid (products self)).
    + exists [new_metric now pid amt stream]. split; [reflexivity | simpl; lia].
    + exists []. rewrite app_nil_r. split; [reflexivity | simpl; lia].
  - exists []. rewrite update_customer_count_run, app_nil_r.
    destruct (PyDict.get pid (products self)); split; try reflexivity; simpl; lia.
  - exists []. rewrite app_nil_r.
    fold (final (calculate_churn_rate pid previous current period) self).
    destruct (calculate_churn_rate_leaves self pid previous current period)
      as [-> | [rate [p [_ ->]]]]; split; try reflexivity; simpl; lia.
  - exists []. rewrite app_nil_r.
    fold (final (calculate_ltv pid revenue lifespan) self).
    destruct (calculate_ltv_leaves self pid revenue lifespan)
      as [-> | [ltv [p [_ ->]]]]; split; try reflexivity; simpl; lia.
  - exists []. rewrite get_product_summary_run, app_nil_r. split; [reflexivity | simpl; lia].
  - exists []. rewrite get_portfolio_summary_run, app_nil_r. split; [reflexivity | simpl; lia].
  - exists []. rewrite project_revenue_run, app_nil_r. split; [reflexivity | simpl; lia].
Qed.

End Further.

(** ** More on dictionaries *)

Section DictUpdates.

Variable V : Type.
Implicit Types (d : PyDict.dict V) (k : string) (v : V).

Lemma dict_set_set k v v' d : PyDict.set k v' (PyDict.set k v d) = PyDict.set k v' d.
Proof.
  induction d as [|[k0 v0] d IH]; simpl.
  - now rewrite String.eqb_refl.
  - destruct (String.eqb k k0) eqn:E; simpl; rewrite E; [reflexivity | now rewrite IH].
Qed.

Lemma dict_len_set k v d :
  PyDict.len (PyDict.set k v d) = PyDict.len d + (if PyDict.contains k d then 0 else 1).
Proof.
  unfold PyDict.len, PyDict.contains. induction d as [|[k0 v0] d IH]; [reflexivity|].
  cbn [PyDict.set PyDict.get]. destruct (String.eqb k k0).
  - simpl List.length. lia.
  - change (List.length ((k0, v0) :: PyDict.set k v d)) with (S (List.length (PyDict.set k v d))).
    change (List.length ((k0, v0) :: d)) with (S (List.length d)).
    rewrite !Nat2Z.inj_succ, IH. lia.
Qed.

Lemma dict_mutate_cons k k0 (f : V -> V) v0 d :
  PyDict.mutate k f ((k0, v0) :: d) =
  if String.eqb k k0 then (k0, f v0) :: d else (k0, v0) :: PyDict.mutate k f d.
Proof.
  unfold PyDict.mutate. simpl. destruct (String.eqb k k0) eqn:E; simpl; rewrite ?E.
  - reflexivity.
  - destruct (PyDict.get k d); simpl; rewrite ?E; reflexivity.
Qed.

Lemma dict_mutate_ext k (f g : V -> V) d :
  (forall v, f v = g v) -> PyDict.mutate k f d = PyDict.mutate k g d.
Proof.
  intros Hfg. induction d as [|[k0 v0] d IH]; [reflexivity|].
  rewrite !dict_mutate_cons. destruct (String.eqb k k0); congruence.
Qed.

Lemma dict_mutate_twice k (f g : V -> V) d :
  PyDict.mutate k f (PyDict.mutate k g d) = PyDict.mutate k (fun v => f (g v)) d.
Proof.
  induction d as [|[k0 v0] d IH]; [reflexivity|].
  rewrite !dict_mutate_cons. destruct (String.eqb k k0) eqn:E.
  - rewrite dict_mutate_cons, E. reflexivity.
  - rewrite dict_mutate_cons, E. now rewrite IH.
Qed.

Lemma dict_mutate_same k d : PyDict.mutate k (fun v => v) d = d.
Proof.
  induction d as [|[k0 v0] d IH]; [reflexivity|].
  rewrite dict_mutate_cons. destruct (String.eqb k k0); [reflexivity | now rewrite IH].
Qed.

Lemma dict_mutate_comm k k' (f g : V -> V) d :
  k <> k' ->
  PyDict.mutate k f (PyDict.mutate k' g d) = PyDict.mutate k' g (PyDict.mutate k f d).
Proof.
  intros Hne. induction d as [|[k0 v0] d IH]; [reflexivity|].
  rewrite !dict_mutate_cons.
  destruct (String.eqb k k0) eqn:E; destruct (String.eqb k' k0) eqn:E'.
  - apply String.eqb_eq in E, E'. congruence.
  - rewrite !dict_mutate_cons, E, E'. reflexivity.
  - rewrite !dict_mutate_cons, E, E'. reflexivity.
  - rewrite !dict_mutate_cons, E, E'. now rewrite IH.
Qed.

Lemma dict_set_present k (f : V -> V) v d :
  PyDict.get k d = Some v -> PyDict.set k (f v) d = PyDict.mutate k f d.
Proof. intros H. unfold PyDict.mutate. now rewrite H. Qed.

Lemma dict_keys_mutate k (f : V -> V) d : PyDict.keys (PyDict.mutate k f d) = PyDict.keys d.
Proof.
  unfold PyDict.mutate. destruct (PyDict.get k d) eqn:E; [|reflexivity].
  apply dict_keys_set_present. apply dict_contains_true. eauto.
Qed.

(** What a function reads off the values does not change when an entry is
    replaced by one with the same reading. *)
Lemma dict_values_set_same {B : Type} (f : V -> B) k v v0 d :
  PyDict.get k d = Some v0 -> f v = f v0 ->
  map f (PyDict.values (PyDict.set k v d)) = map f (PyDict.values d).
Proof.
  unfold PyDict.values. intros Hget Hf.
  induction d as [|[k0 w] d IH]; [discriminate|].
  simpl in Hget |- *. destruct (String.eqb k k0); simpl.
  - injection Hget as ->. now rewrite Hf.
  - now rewrite IH.
Qed.

Lemma dict_values_mutate_same {B : Type} (f : V -> B) (g : V -> V) k d :
  (forall v, f (g v) = f v) ->
  map f (PyDict.values (PyDict.mutate k g d)) = map f (PyDict.values d).
Proof.
  intros Hfg. unfold PyDict.mutate. destruct (PyDict.get k d) eqn:E; [|reflexivity].
  now apply dict_values_set_same with (v0 := v).
Qed.

(** Replacing an entry moves the sum of an integer reading by the
    difference. *)
Lemma dict_sum_set (f : V -> Z) k v v0 d :
  PyDict.get k d = Some v0 ->
  spec_sum_int (map f (PyDict.values (PyDict.set k v d))) =
  spec_sum_int (map f (PyDict.values d)) - f v0 + f v.
Proof.
  unfold PyDict.values, spec_sum_int. intros Hget.
  induction d as [|[k0 w] d IH]; [discriminate|].
  simpl in Hget |- *. destruct (String.eqb k k0); simpl.
  - injection Hget as ->. lia.
  - rewrite IH by exact Hget. lia.
Qed.

Lemma dict_get_In_keys k v d : PyDict.get k d = Some v -> In k (PyDict.keys d).
Proof.
  intros Hget. destruct (in_dec string_dec k (PyDict.keys d)) as [Hin|Hout]; [exact Hin|].
  apply dict_get_None_keys in Hout. congruence.
Qed.

(** Looking up the keys of a dictionary, in order, gives its values. *)
Lemma dict_get_keys d :
  PyDict.wf d -> map (fun k => PyDict.get k d) (PyDict.keys d) = map Some (PyDict.values d).
Proof.
  unfold PyDict.wf, PyDict.keys, PyDict.values.
  induction d as [|[k0 v0] d IH]; [reflexivity|].
  simpl. intros Hwf. inversion Hwf as [|? ? Hout Hwf']; subst.
  rewrite String.eqb_refl. f_equal.
  rewrite <- IH by exact Hwf'. apply map_ext_in.
  intros k Hk. destruct (String.eqb k k0) eqn:E; [|reflexivity].
  apply String.eqb_eq in E. subst. contradiction.
Qed.

End DictUpdates.

(** ** How the methods compose *)

Section Compositions.

Context {F T : Type}.
Context {arith : PyArith F} {power : PyPow F} {fmt : PyFormat F} {clock : PyClock T}.
Implicit Types (self : @QuantumRevenueEngine F T) (p : @ProductRevenue F).
Implicit Types (pid name k : string) (now : T) (c : @Call F T).

Lemma set_products_same self : set_products (products self) self = self.
Proof. now destruct self. Qed.

Lemma dict_contains_In {V : Type} k (d : PyDict.dict V) :
  PyDict.contains k d = true <-> In k (PyDict.keys d).
Proof.
  split.
  - intros H. apply dict_contains_true in H. destruct H as [v Hv].
    now apply dict_get_In_keys with (v := v).
  - intros Hin. destruct (PyDict.contains k d) eqn:E; [reflexivity|].
    apply dict_contains_false, dict_get_None_keys in E. contradiction.
Qed.

(** The calls that assign an attribute, as in-place mutations. *)
Lemma update_customer_count_final self pid count :
  final (update_customer_count pid count) self =
  set_products (PyDict.mutate pid (set_active_customers count) (products self)) self.
Proof.
  unfold final. rewrite update_customer_count_run. unfold PyDict.mutate.
  destruct (PyDict.get pid (products self)); [reflexivity|].
  now rewrite set_products_same.
Qed.

Lemma calculate_ltv_final self pid revenue lifespan (months : F) :
  int_to_float lifespan = Some months ->
  final (calculate_ltv pid revenue lifespan) self =
  set_products
    (PyDict.mutate pid (set_lifetime_value (fmul revenue months)) (products self))
    self.
Proof.
  intros Hmonths. unfold final. rewrite calculate_ltv_run, Hmonths.
  unfold PyDict.mutate. cbn [snd].
  destruct (PyDict.get pid (products self)); [reflexivity|].
  now rewrite set_products_same.
Qed.

Lemma calculate_churn_rate_final self pid previous current period (quotient : F) :
  previous <> 0 ->
  int_truediv (Z.max 0 (previous - current)) previous = Some quotient ->
  final (calculate_churn_rate pid previous current period) self =
  set_products
    (PyDict.mutate pid (set_churn_rate (fmul quotient (of_int 100))) (products self))
    self.
Proof.
  intros Hne Hquotient. unfold final. rewrite calculate_churn_rate_run.
  apply Z.eqb_neq in Hne. rewrite Hne, Hquotient. unfold PyDict.mutate. cbn [snd].
  destruct (PyDict.get pid (products self)); [reflexivity|].
  now rewrite set_products_same.
Qed.

(** A call that raises, or is given 0 previous customers, assigns nothing. *)
Lemma calculate_ltv_raised self pid revenue lifespan :
  int_to_float lifespan = None ->
  final (calculate_ltv pid revenue lifespan) self = self.
Proof. intros H. unfold final. now rewrite calculate_ltv_run, H. Qed.

Lemma calculate_churn_rate_unassigned self pid previous current period :
  previous = 0 \/ int_truediv (Z.max 0 (previous - current)) previous = None ->
  final (calculate_churn_rate pid previous current period) self = self.
Proof.
  intros H. unfold final. rewrite calculate_churn_rate_run.
  destruct (Z.eqb previous 0) eqn:E; [reflexivity|].
  destruct H as [-> | ->]; [discriminate | reflexivity].
Qed.

Lemma keys_after c self :
  PyDict.keys (products (after c self)) =
  (PyDict.keys (products self) ++ newly_registered c self)%list.
Proof.
  destruct c as [pid name pmin pmax target | now pid amt stream | pid count
                | pid previous current period | pid revenue lifespan | pid | | now months];
    unfold after, newly_registered; rewrite ?app_nil_r.
  - unfold final. rewrite register_product_run. cbn [snd products set_products].
    destruct (PyDict.contains pid (products self)) eqn:E.
    + rewrite app_nil_r. now apply dict_keys_set_present.
    + now apply dict_keys_set_absent.
  - unfold final. rewrite record_transaction_run.
    destruct (PyDict.get pid (products self)) as [p|] eqn:E; [|reflexivity].
    cbn [snd products set_products set_total_revenue_history].
    apply dict_keys_set_present, dict_contains_true. eauto.
  - rewrite update_customer_count_final. apply dict_keys_mutate.
  - destruct (calculate_churn_rate_leaves self pid previous current period)
      as [-> | [rate [p [Hget ->]]]]; [reflexivity|].
    apply dict_keys_set_present, dict_contains_true. eauto.
  - destruct (calculate_ltv_leaves self pid revenue lifespan)
      as [-> | [ltv [p [Hget ->]]]]; [reflexivity|].
    apply dict_keys_set_present, dict_contains_true. eauto.
  - unfold final. now rewrite get_product_summary_run.
  - unfold final. now rewrite get_portfolio_summary_run.
  - unfold final. now rewrite project_revenue_run.
Qed.

Lemma contains_after c self k :
  PyDict.contains k (products self) = true ->
  PyDict.contains k (products (after c self)) = true.
Proof.
  intros Hk. apply dict_contains_In. rewrite keys_after.
  apply in_or_app. left. now apply dict_contains_In.
Qed.

(** X7. No method removes or reorders a product: after any call the
    registered ids are the ones from before, in the same order, followed by
    the id of a [register_product] call for an id that was not registered;
    and the product count of the portfolio summary grows by one for such a
    call and stays as it was for every other. *)
Theorem registered_ids_only_grow c self :
  PyDict.keys (products (after c self)) =
    (PyDict.keys (products self) ++ newly_registered c self)%list /\
  (forall k, PyDict.contains k (products self) = true ->
     PyDict.contains k (products (after c self)) = true) /\
  total_products (result get_portfolio_summary (after c self)) =
    total_products (result get_portfolio_summary self)
    + Z.of_nat (List.length (newly_registered c self)) /\
  (List.length (newly_registered c self) <= 1)%nat.
Proof.
  pose proof (keys_after c self) as Hkeys.
  split; [exact Hkeys|]. split; [|split].
  - intros k Hk. now apply contains_after.
  - unfold result. rewrite !get_portfolio_summary_run. cbn [fst total_products].
    unfold PyDict.len.
    replace (List.length (products (after c self)))
      with (List.length (PyDict.keys (products (after c self))))
      by apply length_map.
    rewrite Hkeys, length_app. unfold PyDict.keys at 1. rewrite length_map. lia.
  - unfold newly_registered. destruct c; simpl; try lia.
    destruct (PyDict.contains _ _); simpl; lia.
Qed.

Lemma recent_history_update self self' k (v : @ProductRevenue F) :
  recent_history self ->
  products self' = PyDict.set k v (products self) ->
  total_revenue_history self' = total_revenue_history self ->
  (exists older, metrics_of k (total_revenue_history self) = (older ++ revenue_history v)%list) ->
  recent_history self'.
Proof.
  intros Hrec Hproducts Hglobal Hv k' p. rewrite Hproducts, Hglobal.
  destruct (string_dec k' k) as [->|Hk].
  - rewrite dict_get_set_same. now intros [= <-].
  - rewrite dict_get_set_other by exact Hk. apply Hrec.
Qed.

Lemma recent_history_after c self : recent_history self -> recent_history (after c self).
Proof.
  intros Hrec.
  destruct c as [pid name pmin pmax target | now pid amt stream | pid count
                | pid previous current period | pid revenue lifespan | pid | | now months];
    unfold after, final.
  - rewrite register_product_run. cbn [snd].
    apply (recent_history_update self _ pid (new_product pid name pmin pmax target) Hrec);
      [reflexivity | reflexivity |].
    exists (metrics_of pid (total_revenue_history self)). cbn. now rewrite app_nil_r.
  - rewrite record_transaction_run.
    destruct (PyDict.get pid (products self)) as [p0|] eqn:Hget; [|exact Hrec]. cbn [snd].
    intros k p. cbn [products set_products set_total_revenue_history total_revenue_history].
    unfold metrics_of. rewrite filter_app. cbn [filter source_product new_metric].
    destruct (string_dec k pid) as [->|Hk].
    + rewrite dict_get_set_same, String.eqb_refl. intros [= <-].
      destruct (Hrec pid p0 Hget) as [older Holder]. exists older.
      unfold metrics_of in Holder. rewrite Holder. cbn. unfold list_append.
      now rewrite app_assoc.
    + rewrite dict_get_set_other by exact Hk.
      assert (E : String.eqb pid k = false) by (apply String.eqb_neq; congruence).
      rewrite E, app_nil_r. apply Hrec.
  - rewrite update_customer_count_run.
    destruct (PyDict.get pid (products self)) as [p0|] eqn:Hget; [|exact Hrec]. cbn [snd].
    apply (recent_history_update self _ pid (set_active_customers count p0) Hrec);
      [reflexivity | reflexivity | exact (Hrec pid p0 Hget)].
  - fold (final (calculate_churn_rate pid previous current period) self).
    destruct (calculate_churn_rate_leaves self pid previous current period)
      as [-> | [rate [p0 [Hget ->]]]]; [exact Hrec|].
    apply (recent_history_update self _ pid (set_churn_rate rate p0) Hrec);
      [reflexivity | reflexivity | exact (Hrec pid p0 Hget)].
  - fold (final (calculate_ltv pid revenue lifespan) self).
    destruct (calculate_ltv_leaves self pid revenue lifespan)
      as [-> | [ltv [p0 [Hget ->]]]]; [exact Hrec|].
    apply (recent_history_update self _ pid (set_lifetime_value ltv p0) Hrec);
      [reflexivity | reflexivity | exact (Hrec pid p0 Hget)].
  - now rewrite get_product_summary_run.
  - now rewrite get_portfolio_summary_run.
  - now rewrite project_revenue_run.
Qed.

(** X8. In every ledger that method calls lead to from a new engine, the
    history of a registered product is a suffix of the metrics that the
    global history holds for that product, in the same order: the product
    keeps exactly what was recorded since it was last registered, and the
    global history keeps all of it. *)
Theorem product_history_is_recent_global_history self :
  reachable self ->
  forall k p, PyDict.get k (products self) = Some p ->
    exists older,
      metrics_of k (total_revenue_history self) = (older ++ revenue_history p)%list.
Proof.
  induction 1 as [now | c self Hreach IH].
  - intros k p. cbn. discriminate.
  - now apply recent_history_after.
Qed.

(** X9. In every ledger that method calls lead to from a new engine, every
    metric of the global history is in USD and names as its source a product
    id that is registered. *)
Theorem global_history_sources_registered self :
  reachable self ->
  forall m, In m (total_revenue_history self) ->
    currency m = "USD" /\ PyDict.contains (source_product m) (products self) = true.
Proof.
  induction 1 as [now | c self Hreach IH].
  - intros m []. 
  - intros m Hm.
    assert (Hold : In m (total_revenue_history self) ->
                   currency m = "USD" /\
                   PyDict.contains (source_product m) (products (after c self)) = true).
    { intros Hin. destruct (IH m Hin) as [Hcur Hsrc]. split; [exact Hcur|].
      now apply contains_after. }
    destruct c as [pid name pmin pmax target | now pid amt stream | pid count
                  | pid previous current period | pid revenue lifespan | pid | | now months];
      unfold after, final in Hm |- *.
    + rewrite register_product_run in Hm. apply Hold. exact Hm.
    + rewrite record_transaction_run in Hm |- *.
      destruct (PyDict.get pid (products self)) as [p0|] eqn:Hget.
      * cbn in Hm. apply in_app_or in Hm. destruct Hm as [Hm|[<-|[]]].
        -- pose proof (Hold Hm) as Hres. unfold after, final in Hres.
           rewrite record_transaction_run, Hget in Hres. exact Hres.
        -- split; [reflexivity|]. cbn. apply dict_contains_true.
           rewrite dict_get_set_same. eauto.
      * apply IH. exact Hm.
    + rewrite update_customer_count_run in Hm.
      destruct (PyDict.get pid (products self)); apply Hold; exact Hm.
    + fold (final (calculate_churn_rate pid previous current period) self) in Hm.
      destruct (calculate_churn_rate_leaves self pid previous current period)
        as [E | [rate [p0 [_ E]]]]; rewrite E in Hm; apply Hold; exact Hm.
    + fold (final (calculate_ltv pid revenue lifespan) self) in Hm.
      destruct (calculate_ltv_leaves self pid revenue lifespan)
        as [E | [ltv [p0 [_ E]]]]; rewrite E in Hm; apply Hold; exact Hm.
    + rewrite get_product_summary_run in Hm. apply Hold. exact Hm.
    + rewrite get_portfolio_summary_run in Hm. apply Hold. exact Hm.
    + rewrite project_revenue_run in Hm. apply Hold. exact Hm.
Qed.

Lemma values_after {B : Type} (f : @ProductRevenue F -> B) c self :
  (forall n p, f (set_active_customers n p) = f p) ->
  (forall v p, f (set_lifetime_value v p) = f p) ->
  (forall m p, f (append_revenue_history m p) = f p) ->
  (forall r p, f (set_churn_rate r p) = f p) \/ touches_projection c = false ->
  registers c = false ->
  map f (PyDict.values (products (after c self))) = map f (PyDict.values (products self)).
Proof.
  intros Hcustomers Hltv Happend Hchurn Hreg.
  destruct c as [pid name pmin pmax target | now pid amt stream | pid count
                | pid previous current period | pid revenue lifespan | pid | | now months];
    try discriminate Hreg; unfold after.
  - unfold final. rewrite record_transaction_run.
    destruct (PyDict.get pid (products self)) as [p0|] eqn:Hget; [|reflexivity].
    cbn [snd products set_products set_total_revenue_history].
    apply dict_values_set_same with (v0 := p0); [exact Hget | apply Happend].
  - rewrite update_customer_count_final. cbn [products set_products].
    apply dict_values_mutate_same. apply Hcustomers.
  - destruct Hchurn as [Hchurn|Hno]; [|discriminate Hno].
    destruct (calculate_churn_rate_leaves self pid previous current period)
      as [-> | [rate [p0 [Hget ->]]]]; [reflexivity|]. cbn [products set_products].
    apply dict_values_set_same with (v0 := p0); [exact Hget | apply Hchurn].
  - destruct (calculate_ltv_leaves self pid revenue lifespan)
      as [-> | [ltv [p0 [Hget ->]]]]; [reflexivity|]. cbn [products set_products].
    apply dict_values_set_same with (v0 := p0); [exact Hget | apply Hltv].
  - unfold final. now rewrite get_product_summary_run.
  - unfold final. now rewrite get_portfolio_summary_run.
  - unfold final. now rewrite project_revenue_run.
Qed.

(** X10. [update_customer_count] on a registered product moves the total of
    active customers that the portfolio summary reports by the difference
    between the new count and the product's old one. *)
Theorem update_customer_count_adjusts_total self pid count p :
  PyDict.get pid (products self) = Some p ->
  total_active_customers
    (result get_portfolio_summary (final (update_customer_count pid count) self)) =
  total_active_customers (result get_portfolio_summary self) - active_customers p + count.
Proof.
  intros Hget. unfold result, final.
  rewrite !get_portfolio_summary_run, update_customer_count_run, Hget.
  cbn [fst snd total_active_customers products set_products].
  rewrite !py_sum_int_spec.
  now rewrite (dict_sum_set _ active_customers pid (set_active_customers count p) p).
Qed.

(** X11. Only [register_product] changes the target MRR of the portfolio:
    after a call of any other method, [get_portfolio_summary] reports the
    total MRR, the total ARR and the product count it reported before. *)
Theorem total_mrr_changes_only_by_registration c self :
  registers c = false ->
  total_mrr (result get_portfolio_summary (after c self)) =
    total_mrr (result get_portfolio_summary self) /\
  total_arr (result get_portfolio_summary (after c self)) =
    total_arr (result get_portfolio_summary self) /\
  total_products (result get_portfolio_summary (after c self)) =
    total_products (result get_portfolio_summary self).
Proof.
  intros Hreg. unfold result. rewrite !get_portfolio_summary_run.
  cbn [fst total_mrr total_arr total_products].
  assert (Hmrr : spec_total_mrr (after c self) = spec_total_mrr self).
  { unfold spec_total_mrr. f_equal.
    apply values_after; try reflexivity; [left; reflexivity | exact Hreg]. }
  rewrite Hmrr. repeat split.
  unfold PyDict.len. f_equal.
  transitivity (List.length (PyDict.keys (products (after c self))));
    [symmetry; apply length_map|].
  rewrite keys_after. destruct c; try discriminate Hreg; cbn [newly_registered];
    rewrite app_nil_r; apply length_map.
Qed.

(** X12. Projections read target MRR and churn rate and nothing else: after
    a call of any method other than [register_product] and
    [calculate_churn_rate] (recording a transaction, updating a customer
    count, computing a lifetime value, a report), [project_revenue] returns
    what it returned before, for the same clock reading and months. *)
Theorem projections_ignore_other_calls c self now months :
  touches_projection c = false ->
  result (project_revenue now months) (after c self) =
  result (project_revenue now months) self.
Proof.
  intros Hc. unfold result. rewrite !project_revenue_run. cbn [fst].
  replace (map (projection_entry (after c self) now) (py_range 1 (months + 1)))
    with (map (projection_entry self now) (py_range 1 (months + 1))); [reflexivity|].
  apply map_ext. intros m. unfold projection_entry.
  assert (Htotal : spec_projected_total (after c self) m = spec_projected_total self m).
  { unfold spec_projected_total. do 2 f_equal.
    apply (values_after (fun p => spec_projected_mrr_for_product p m));
      try reflexivity; [right; exact Hc|].
    destruct c; try reflexivity; discriminate Hc. }
  now rewrite Htotal.
Qed.

(** X13. Assignments overwrite: two calls of [update_customer_count], of
    [calculate_ltv] (the second with a lifespan that converts to a float),
    of [calculate_churn_rate] (the second with [previous_customers] other
    than 0 and a quotient within the float range) or of [register_product]
    for the same product id leave the ledger that the second call alone
    leaves.  When the second call of [calculate_ltv] or of
    [calculate_churn_rate] raises, the ledger is the one the first call
    left. *)
Theorem last_write_wins self pid :
  (forall count count',
     final (update_customer_count pid count')
       (final (update_customer_count pid count) self) =
     final (update_customer_count pid count') self) /\
  (forall revenue lifespan revenue' lifespan',
     (int_to_float lifespan' <> None ->
      final (calculate_ltv pid revenue' lifespan')
        (final (calculate_ltv pid revenue lifespan) self) =
      final (calculate_ltv pid revenue' lifespan') self) /\
     (int_to_float lifespan' = None ->
      final (calculate_ltv pid revenue' lifespan')
        (final (calculate_ltv pid revenue lifespan) self) =
      final (calculate_ltv pid revenue lifespan) self)) /\
  (forall previous current period previous' current' period',
     (previous' <> 0 ->
      int_truediv (Z.max 0 (previous' - current')) previous' <> None ->
      final (calculate_churn_rate pid previous' current' period')
        (final (calculate_churn_rate pid previous current period) self) =
      final (calculate_churn_rate pid previous' current' period') self) /\
     (int_truediv (Z.max 0 (previous' - current')) previous' = None ->
      final (calculate_churn_rate pid previous' current' period')
        (final (calculate_churn_rate pid previous current period) self) =
      final (calculate_churn_rate pid previous current period) self)) /\
  (forall name pmin pmax target name' pmin' pmax' target',
     final (register_product pid name' pmin' pmax' target')
       (final (register_product pid name pmin pmax target) self) =
     final (register_product pid name' pmin' pmax' target') self).
Proof.
  split; [|split; [|split]].
  - intros count count'. rewrite !update_customer_count_final.
    cbn [products set_products]. unfold set_products at 1 3.
    cbn [total_revenue_history created_at set_products].
    rewrite dict_mutate_twice. f_equal.
  - intros revenue lifespan revenue' lifespan'. split.
    + destruct (int_to_float lifespan') as [months'|] eqn:Hsecond; [intros _|congruence].
      destruct (int_to_float lifespan) as [months|] eqn:Hfirst.
      * rewrite (calculate_ltv_final self pid revenue lifespan months Hfirst).
        rewrite !(calculate_ltv_final _ pid revenue' lifespan' months' Hsecond).
        cbn [products set_products]. unfold set_products at 1 3.
        cbn [total_revenue_history created_at set_products].
        rewrite dict_mutate_twice. f_equal.
      * now rewrite (calculate_ltv_raised self pid revenue lifespan Hfirst).
    + intros Hsecond. now apply calculate_ltv_raised.
  - intros previous current period previous' current' period'. split.
    + intros Hne.
      destruct (int_truediv (Z.max 0 (previous' - current')) previous')
        as [quotient'|] eqn:Hsecond; [intros _|congruence].
      destruct (calculate_churn_rate_leaves self pid previous current period)
        as [-> | [rate [p [Hget ->]]]]; [reflexivity|].
      rewrite !(calculate_churn_rate_final _ pid previous' current' period' quotient'
                  Hne Hsecond).
      cbn [products set_products]. unfold set_products at 1 3.
      cbn [total_revenue_history created_at set_products].
      f_equal. unfold PyDict.mutate. rewrite dict_get_set_same, Hget.
      apply dict_set_set.
    + intros Hsecond. apply calculate_churn_rate_unassigned. now right.
  - intros name pmin pmax target name' pmin' pmax' target'.
    unfold final. rewrite !register_product_run.
    cbn [snd products set_products]. unfold set_products.
    cbn [total_revenue_history created_at]. now rewrite dict_set_set.
Qed.

Lemma after_assigns c pid (a : Attribute) self :
  assigns c = Some (pid, a) ->
  after c self = set_products (PyDict.mutate pid (assignment c) (products self)) self.
Proof.
  destruct c as [pid0 name pmin pmax target | now pid0 amt stream | pid0 count
                | pid0 previous current period | pid0 revenue lifespan | pid0 | | now months];
    cbn [assigns]; try discriminate.
  - intros [= -> _]. apply update_customer_count_final.
  - destruct (Z.eqb previous 0) eqn:E; [discriminate|].
    intros [= -> _]. unfold after, assignment.
    destruct (int_truediv _ previous) as [quotient|] eqn:Hquotient.
    + apply calculate_churn_rate_final; [now apply Z.eqb_neq | exact Hquotient].
    + rewrite dict_mutate_same, set_products_same.
      apply calculate_churn_rate_unassigned. now right.
  - intros [= -> _]. unfold after, assignment.
    destruct (int_to_float lifespan) as [months|] eqn:Hmonths.
    + now apply calculate_ltv_final.
    + rewrite dict_mutate_same, set_products_same. now apply calculate_ltv_raised.
Qed.

Lemma assignments_commute c c' pid pid' (a a' : Attribute) p :
  assigns c = Some (pid, a) -> assigns c' = Some (pid', a') -> a <> a' ->
  assignment c (assignment c' p) = assignment c' (assignment c p).
Proof.
  intros Hc Hc' Hne.
  destruct c; cbn [assigns] in Hc; try discriminate Hc;
    destruct c'; cbn [assigns] in Hc'; try discriminate Hc';
    cbn [assignment];
    repeat match goal with
           | H : context [Z.eqb ?x 0] |- _ => destruct (Z.eqb x 0); try discriminate H
           | |- context [int_truediv ?x ?y] => destruct (int_truediv x y)
           | |- context [int_to_float ?x] => destruct (int_to_float x)
           end;
    injection Hc as _ <-; injection Hc' as _ <-; try reflexivity; contradiction.
Qed.

(** X14. Assignments to different attributes, or to different products,
    commute: of two calls among [update_customer_count], [calculate_ltv] and
    [calculate_churn_rate] with [previous_customers] other than 0 that do
    not assign the same attribute of the same product, either order leaves
    the same ledger, whether the calls return or raise. *)
Theorem attribute_updates_commute c c' (target target' : string * Attribute) self :
  assigns c = Some target -> assigns c' = Some target' -> target <> target' ->
  after c (after c' self) = after c' (after c self).
Proof.
  destruct target as [pid a], target' as [pid' a']. intros Hc Hc' Hne.
  rewrite (after_assigns c pid a _ Hc), (after_assigns c' pid' a' _ Hc').
  rewrite (after_assigns c pid a _ Hc), (after_assigns c' pid' a' _ Hc').
  cbn [products set_products]. unfold set_products.
  cbn [total_revenue_history created_at]. f_equal.
  destruct (string_dec pid pid') as [<-|Hpid].
  - rewrite !dict_mutate_twice. apply dict_mutate_ext. intros p.
    apply (assignments_commute c c' pid pid a a' p Hc Hc'). congruence.
  - now apply dict_mutate_comm.
Qed.

Lemma after_all_app (cs cs' : list (@Call F T)) self :
  after_all (cs ++ cs') self = after_all cs' (after_all cs self).
Proof. apply fold_left_app. Qed.

(** X15. Transactions accumulate: after any number of [record_transaction]
    calls for a registered product, the product's history is its history
    from before followed by the new metrics in the order of the calls, the
    global history is extended by the same metrics, and
    [get_product_summary] reports as total recorded revenue (the currency
    string of) the left-to-right sum of all the amounts in that history, the
    earlier ones and the new ones. *)
Theorem recorded_revenue_accumulates (txs : list (T * F * RevenueStream)) self pid p :
  PyDict.get pid (products self) = Some p ->
  let self' := after_all (record_calls pid txs) self in
  option_map revenue_history (PyDict.get pid (products self')) =
    Some (revenue_history p ++ recorded_metrics pid txs)%list /\
  total_revenue_history self' =
    (total_revenue_history self ++ recorded_metrics pid txs)%list /\
  option_map summary_total_recorded_revenue (result (get_product_summary pid) self') =
    Some ("$" ++ format_comma_2f
            (py_sum (map amount (revenue_history p) ++ map (fun tx => snd (fst tx)) txs))).
Proof.
  intros Hget self'. subst self'.
  assert (Hmain :
    option_map revenue_history
      (PyDict.get pid (products (after_all (record_calls pid txs) self)))
      = Some (revenue_history p ++ recorded_metrics pid txs)%list /\
    total_revenue_history (after_all (record_calls pid txs) self)
      = (total_revenue_history self ++ recorded_metrics pid txs)%list).
  { revert self p Hget. induction txs as [|tx txs IH]; intros self p Hget.
    - cbn. rewrite Hget, !app_nil_r. split; reflexivity.
    - cbn [record_calls map after_all fold_left after].
      set (m := {| stream_type := snd tx; amount := snd (fst tx); currency := "USD";
                   timestamp := isoformat (fst (fst tx)); source_product := pid |}).
      assert (Hstep : PyDict.get pid
                (products (final (record_transaction (fst (fst tx)) pid (snd (fst tx)) (snd tx))
                             self)) = Some (append_revenue_history m p)).
      { unfold final. rewrite record_transaction_run, Hget.
        cbn [snd products set_products set_total_revenue_history].
        apply dict_get_set_same. }
      destruct (IH _ _ Hstep) as [Hhist Hglobal].
      fold (record_calls pid txs). unfold after_all in Hhist, Hglobal.
      rewrite Hhist, Hglobal. unfold final. rewrite record_transaction_run, Hget.
      cbn. unfold list_append. rewrite <- !app_assoc. split; reflexivity. }
  destruct Hmain as [Hhist Hglobal]. split; [exact Hhist|]. split; [exact Hglobal|].
  unfold result. rewrite get_product_summary_run. cbn [fst].
  destruct (PyDict.get pid (products (after_all (record_calls pid txs) self))) as [p'|];
    [|discriminate Hhist].
  cbn in Hhist |- *. injection Hhist as Hhist. rewrite Hhist, map_app.
  do 4 f_equal. unfold recorded_metrics. rewrite map_map. reflexivity.
Qed.

Lemma firstn_seq (k start len : nat) :
  firstn k (seq start len) = seq start (Nat.min k len).
Proof.
  revert start len. induction k as [|k IH]; intros start [|len]; simpl; try reflexivity.
  now rewrite IH.
Qed.

(** X16. A shorter projection is the beginning of a longer one: for
    [months <= longer] and the same clock reading, when
    [project_revenue(longer)] returns, [project_revenue(months)] returns
    too, and its entries are the first [months] entries of the longer
    projection; and for [months <= 0] the call returns no entries at
    all. *)
Theorem project_revenue_shorter_is_prefix self now months longer :
  months <= longer ->
  (forall report,
     result (project_revenue now longer) self = Returned report ->
     result (project_revenue now months) self =
     Returned {| projection_period_months := months;
                 projections := firstn (Z.to_nat months) (projections report) |}) /\
  (months <= 0 ->
   result (project_revenue now months) self =
   Returned {| projection_period_months := months; projections := [] |}).
Proof.
  intros Hle. split.
  - intros report Hlonger.
    destruct (project_revenue_returned self now longer report Hlonger) as [_ Hmap].
    assert (Hprefix :
      map Some (firstn (Z.to_nat months) (projections report)) =
      map (projection_entry self now) (py_range 1 (months + 1))).
    { rewrite <- firstn_map, Hmap. unfold py_range.
      rewrite !firstn_map, firstn_seq. do 3 f_equal. lia. }
    unfold result. rewrite project_revenue_run, <- Hprefix.
    now rewrite (all_values_map Some (fun e => e)), map_id.
  - intros Hneg. unfold result. rewrite project_revenue_run. unfold py_range.
    replace (Z.to_nat (months + 1 - 1)) with 0%nat by lia. reflexivity.
Qed.

(** X17. In every ledger that method calls lead to from a new engine, the
    portfolio listing of [get_portfolio_summary] holds a summary for every
    registered product and no empty place, and the product ids in the
    summaries are the registered ids in the order of registration. *)
Theorem portfolio_lists_every_product self :
  reachable self ->
  portfolio (result get_portfolio_summary self) =
    map (fun p => Some (product_summary p)) (PyDict.values (products self)) /\
  map (option_map summary_product_id) (portfolio (result get_portfolio_summary self)) =
    map Some (PyDict.keys (products self)).
Proof.
  intros Hreach.
  assert (Hinv : ledger_invariant self).
  { induction Hreach as [now | c self Hreach IH].
    - split; cbn; [constructor | discriminate | discriminate].
    - now apply invariant_after. }
  destruct Hinv as [Hwf Hkey _].
  unfold result. rewrite get_portfolio_summary_run. cbn [fst portfolio].
  assert (Hlist : map (fun k => option_map product_summary (PyDict.get k (products self)))
                    (PyDict.keys (products self)) =
                  map (fun p => Some (product_summary p)) (PyDict.values (products self))).
  { rewrite <- (map_map (fun k => PyDict.get k (products self)) (option_map product_summary)).
    rewrite dict_get_keys by exact Hwf. now rewrite map_map. }
  split; [exact Hlist|].
  rewrite map_map. apply map_ext_in. intros k Hk.
  destruct (PyDict.get k (products self)) as [p|] eqn:Hget.
  - cbn. f_equal. now apply Hkey.
  - apply dict_get_None_keys in Hget. contradiction.
Qed.

End Compositions.

(** ** The report export *)

Section ExportFacts.

Context {F T FS : Type}.
Context {arith : PyArith F} {power : PyPow F} {fmt : PyFormat F} {clock : PyClock T}.
Context {files : PyFiles FS} {json : @PyJson F}.

Lemma asdict_items (d : PyDict.dict (@ProductRevenue F)) :
  map (fun item => (fst item, asdict (snd item))) d = d.
Proof.
  induction d as [|[k v] d IH]; [reflexivity|]. simpl. now rewrite IH.
Qed.

Lemma export_report_run (w : @World F T FS) now_generated now_projected filepath :
  export_report now_generated now_projected filepath w =
  match result (project_revenue now_projected 12) (fst w) with
  | Raised _ => (false, w)
  | Returned projections =>
      match json_dumps (report_of (fst w) now_generated projections) with
      | None => (false, w)
      | Some text =>
          (snd (write_text (snd w) filepath text),
           (fst w, fst (write_text (snd w) filepath text)))
      end
  end.
Proof.
  destruct w as [self fs].
  unfold export_report, on_engine, bind, get_state, put_state, ret, result. cbn [fst snd].
  rewrite get_portfolio_summary_run. cbn [fst snd].
  rewrite project_revenue_run. cbn [fst snd].
  destruct (all_values _) as [entries|]; [|reflexivity].
  rewrite asdict_items.
  unfold report_of, result.
  rewrite get_portfolio_summary_run. cbn [fst].
  destruct (json_dumps _) as [text|]; [|reflexivity]. cbn [fst snd].
  destruct (write_text fs filepath text) as [fs' written]. reflexivity.
Qed.

(** X18. [export_report] never changes the ledger.  When
    [project_revenue(12)] raises, it returns false and the file system is as
    it was; so it does when the serializer raises; otherwise it writes the
    serialized report to the path given and returns whether the write went
    through.  The report holds the portfolio summary, the products as
    registered, and the 12 projections that [project_revenue] returned, for
    months 1 to 12 in this order. *)
Theorem export_report_writes_report_or_fails (w : @World F T FS)
  now_generated now_projected filepath :
  let out := export_report now_generated now_projected filepath w in
  fst (snd out) = fst w /\
  (forall e,
     result (project_revenue now_projected 12) (fst w) = Raised e -> out = (false, w)) /\
  (forall projected,
     result (project_revenue now_projected 12) (fst w) = Returned projected ->
     let report := report_of (fst w) now_generated projected in
     (json_dumps report = None -> out = (false, w)) /\
     (forall text, json_dumps report = Some text ->
        fst out = snd (write_text (snd w) filepath text) /\
        snd (snd out) = fst (write_text (snd w) filepath text)) /\
     portfolio_summary report = result get_portfolio_summary (fst w) /\
     report_products report = products (fst w) /\
     revenue_projections report = projected /\
     map month (projections projected) = [1; 2; 3; 4; 5; 6; 7; 8; 9; 10; 11; 12]).
Proof.
  intros out. subst out. rewrite export_report_run.
  split; [|split].
  - destruct (result _ (fst w)) as [projected|e]; [|reflexivity].
    destruct (json_dumps _); reflexivity.
  - intros e He. now rewrite He.
  - intros projected Hprojected report. subst report. rewrite Hprojected.
    split; [|split; [|split; [|split; [|split]]]].
    + intros Hnone. now rewrite Hnone.
    + intros text Hsome. rewrite Hsome. split; reflexivity.
    + reflexivity.
    + reflexivity.
    + reflexivity.
    + destruct (project_revenue_returned (fst w) now_projected 12 projected Hprojected)
        as [_ Hmap].
      exact (entries_months (fst w) now_projected _ _ Hmap).
Qed.

End ExportFacts.

(** ** The formulas in exact arithmetic *)

Lemma Qc_of_int_le (a b : Z) : a <= b -> (Exact.Qc_of_int a <= Exact.Qc_of_int b)%Qc.
Proof.
  intros H. unfold Qcle, Exact.Qc_of_int, Q2Qc. cbn [this].
  rewrite !Qred_correct. now rewrite <- Zle_Qle.
Qed.

Lemma Qcmult_le_compat_l (x y z : Qc) : (x <= y)%Qc -> (Q2Qc 0 <= z)%Qc -> (z * x <= z * y)%Qc.
Proof. intros. rewrite !(Qcmult_comm z). now apply Qcmult_le_compat_r. Qed.

(** The share of customers kept lies between 0 and 1. *)
Lemma keep_factor_range (churn : Qc) :
  (Q2Qc 0 <= churn)%Qc -> (churn <= Exact.Qc_of_int 100)%Qc ->
  (Q2Qc 0 <= Exact.Qc_of_int 1 - churn / Exact.Qc_of_int 100)%Qc /\
  (Exact.Qc_of_int 1 - churn / Exact.Qc_of_int 100 <= 1)%Qc.
Proof.
  intros H0 H100.
  assert (Hpos : (Q2Qc 0 < Exact.Qc_of_int 100)%Qc) by reflexivity.
  assert (Hnz : Exact.Qc_of_int 100 <> Q2Qc 0) by discriminate.
  set (x := (churn / Exact.Qc_of_int 100)%Qc).
  assert (Hx : (x * Exact.Qc_of_int 100 = churn)%Qc) by (apply test_field; exact Hnz).
  assert (Hx0 : (Q2Qc 0 <= x)%Qc).
  { apply Qcmult_lt_0_le_reg_r with (z := Exact.Qc_of_int 100); [exact Hpos|].
    now rewrite Hx, Qcmult_0_l. }
  assert (Hx1 : (x <= 1)%Qc).
  { apply Qcmult_lt_0_le_reg_r with (z := Exact.Qc_of_int 100); [exact Hpos|].
    now rewrite Hx, Qcmult_1_l. }
  change (Exact.Qc_of_int 1) with 1%Qc. split.
  - apply Qcle_minus_iff in Hx1. exact Hx1.
  - apply Qcle_minus_iff. 
    replace (1 + - (1 - x))%Qc with x by ring. exact Hx0.
Qed.

Lemma Qcpower_le_1 (q : Qc) (n : nat) :
  (Q2Qc 0 <= q)%Qc -> (q <= 1)%Qc -> (q ^ n <= 1)%Qc.
Proof.
  intros H0 H1. induction n as [|n IH]; simpl.
  - apply Qcle_refl.
  - apply Qcle_trans with (1 * q ^ n)%Qc.
    + apply Qcmult_le_compat_r; [exact H1 | now apply Qcpower_pos].
    + now rewrite Qcmult_1_l.
Qed.

Lemma Qc_pow_range (q : Qc) (m : Z) :
  (Q2Qc 0 <= q)%Qc -> (q <= 1)%Qc -> 1 <= m ->
  (Q2Qc 0 <= Exact.Qc_pow q m)%Qc /\ (Exact.Qc_pow q m <= 1)%Qc /\
  (Exact.Qc_pow q (m + 1) <= Exact.Qc_pow q m)%Qc.
Proof.
  intros H0 H1 Hm. destruct m as [|k|k]; try lia.
  replace (Z.pos k + 1) with (Z.pos (Pos.succ k)) by lia.
  cbn [Exact.Qc_pow]. rewrite Pos2Nat.inj_succ. cbn [Qcpower].
  repeat split.
  - now apply Qcpower_pos.
  - now apply Qcpower_le_1.
  - apply Qcle_trans with (1 * q ^ Pos.to_nat k)%Qc.
    + apply Qcmult_le_compat_r; [exact H1 | now apply Qcpower_pos].
    + rewrite Qcmult_1_l. apply Qcle_refl.
Qed.

Lemma sum_le {A : Type} (f g : A -> Qc) (l : list A) (a b : Qc) :
  (a <= b)%Qc -> (forall x, In x l -> (f x <= g x)%Qc) ->
  (fold_left Qcplus (map f l) a <= fold_left Qcplus (map g l) b)%Qc.
Proof.
  revert a b. induction l as [|x l IH]; intros a b Hab Hfg; simpl; [exact Hab|].
  apply IH.
  - apply Qcplus_le_compat; [exact Hab | apply Hfg; now left].
  - intros y Hy. apply Hfg. now right.
Qed.

Lemma sum_nonneg {A : Type} (f : A -> Qc) (l : list A) (a : Qc) :
  (Q2Qc 0 <= a)%Qc -> (forall x, In x l -> (Q2Qc 0 <= f x)%Qc) ->
  (Q2Qc 0 <= fold_left Qcplus (map f l) a)%Qc.
Proof.
  revert a. induction l as [|x l IH]; intros a Ha Hf; simpl; [exact Ha|].
  apply IH.
  - rewrite <- (Qcplus_0_l (Q2Qc 0)).
    apply Qcplus_le_compat; [exact Ha | apply Hf; now left].
  - intros y Hy. apply Hf. now right.
Qed.

Lemma Qc_of_int_lt (a b : Z) : a < b -> (Exact.Qc_of_int a < Exact.Qc_of_int b)%Qc.
Proof.
  intros H. unfold Qclt, Exact.Qc_of_int, Q2Qc. cbn [this].
  rewrite !Qred_correct. now rewrite <- Zlt_Qlt.
Qed.

Lemma exact_ratio_range (c p : Z) :
  0 <= c <= p -> 0 < p ->
  (Exact.Qc_of_int 0 <= Qcmult (Qcdiv (Exact.Qc_of_int c) (Exact.Qc_of_int p)) (Exact.Qc_of_int 100))%Qc /\
  (Qcmult (Qcdiv (Exact.Qc_of_int c) (Exact.Qc_of_int p)) (Exact.Qc_of_int 100) <= Exact.Qc_of_int 100)%Qc.
Proof.
  intros Hc Hp.
  pose proof (Qc_of_int_lt 0 p Hp) as Hpos.
  assert (Hnz : Exact.Qc_of_int p <> Q2Qc 0).
  { intros E. change (Exact.Qc_of_int 0) with (Q2Qc 0) in Hpos. rewrite E in Hpos.
    now apply Qclt_not_eq in Hpos. }
  set (x := Qcdiv (Exact.Qc_of_int c) (Exact.Qc_of_int p)).
  assert (Hx : (x * Exact.Qc_of_int p = Exact.Qc_of_int c)%Qc) by (apply test_field; exact Hnz).
  assert (H0 : (Q2Qc 0 <= x)%Qc).
  { apply Qcmult_lt_0_le_reg_r with (z := Exact.Qc_of_int p); [exact Hpos|].
    rewrite Hx, Qcmult_0_l. apply (Qc_of_int_le 0 c). lia. }
  assert (H1 : (x <= 1)%Qc).
  { apply Qcmult_lt_0_le_reg_r with (z := Exact.Qc_of_int p); [exact Hpos|].
    rewrite Hx, Qcmult_1_l. apply Qc_of_int_le. lia. }
  split.
  - change (Exact.Qc_of_int 0) with (Q2Qc 0).
    rewrite <- (Qcmult_0_l (Exact.Qc_of_int 100)).
    apply Qcmult_le_compat_r; [exact H0 | apply (Qc_of_int_le 0 100); lia].
  - rewrite <- (Qcmult_1_l (Exact.Qc_of_int 100)) at 2.
    apply Qcmult_le_compat_r; [exact H1 | apply (Qc_of_int_le 0 100); lia].
Qed.

(** X19. In exact arithmetic, for [previous_customers > 0] and
    [current_customers >= 0], [calculate_churn_rate] returns a churn rate
    that lies between 0 and 100, and that is 0 when the customers did not
    get fewer. *)
Theorem exact_churn_rate_within_0_100 {T : Type} (self : @QuantumRevenueEngine Qc T)
  (pid : string) (previous current period : Z) :
  0 < previous -> 0 <= current ->
  exists rate : Qc,
    result (calculate_churn_rate pid previous current period) self = Returned rate /\
    (Exact.Qc_of_int 0 <= rate)%Qc /\
    (rate <= Exact.Qc_of_int 100)%Qc /\
    (previous <= current -> rate = Exact.Qc_of_int 0).
Proof.
  intros Hprevious Hcurrent.
  exists (Qcmult (Qcdiv (Exact.Qc_of_int (Z.max 0 (previous - current)))
                        (Exact.Qc_of_int previous)) (Exact.Qc_of_int 100)).
  split.
  { unfold result. rewrite calculate_churn_rate_run.
    replace (Z.eqb previous 0) with false by (symmetry; apply Z.eqb_neq; lia).
    reflexivity. }
  destruct (exact_ratio_range (Z.max 0 (previous - current)) previous) as [Hlow Hhigh];
    [lia | exact Hprevious |].
  split; [exact Hlow|]. split; [exact Hhigh|].
  intros Hgrew. replace (Z.max 0 (previous - current)) with 0 by lia.
  unfold Qcdiv. change (Exact.Qc_of_int 0) with (Q2Qc 0). now rewrite !Qcmult_0_l.
Qed.

(** The projected MRR of a product and the projected total of a month in
    exact arithmetic, where no power is out of range. *)
Lemma exact_projected_total {T : Type} (self : @QuantumRevenueEngine Qc T) (m : Z) :
  spec_projected_total self m =
  Some (fold_left Qcplus
          (map (fun p => Qcmult (monthly_recurring_revenue p)
                                (Exact.Qc_pow (spec_churn_factor p) m))
               (PyDict.values (products self)))
          (Q2Qc 0)).
Proof.
  unfold spec_projected_total.
  rewrite (all_values_map _
             (fun p => Qcmult (monthly_recurring_revenue p)
                              (Exact.Qc_pow (spec_churn_factor p) m)));
    [reflexivity|].
  intros p _. reflexivity.
Qed.

(** X20. In exact arithmetic, when every registered product has a target
    MRR that is not negative and a churn rate between 0 and 100, and the
    dates of the months are within the clock's range, [project_revenue]
    returns a report whose entry for month [m] shows (the currency string
    of) a total that is not negative, is not below the total of the month
    after, and is never above the total target MRR of the portfolio. *)
Theorem exact_projection_never_grows {T : Type} {clock : PyClock T}
  (self : @QuantumRevenueEngine Qc T) (now : T) (months : Z) :
  (forall p, In p (PyDict.values (products self)) -> within_ranges p) ->
  (forall m, 1 <= m <= months -> plus_days now (30 * m) <> None) ->
  exists report,
    result (project_revenue now months) self = Returned report /\
    forall m, 1 <= m <= months ->
      exists total next : Qc,
        spec_projected_total self m = Some total /\
        spec_projected_total self (m + 1) = Some next /\
        option_map projected_mrr (nth_error (projections report) (Z.to_nat (m - 1))) =
          Some ("$" ++ format_comma_2f total) /\
        (Q2Qc 0 <= total)%Qc /\
        (next <= total)%Qc /\
        (total <= spec_total_mrr self)%Qc.
Proof.
  intros Hranges Hdates.
  destruct (project_revenue_returns self now months) as [entries [Hrun _]].
  { intros m Hm. split; [now apply Hdates | discriminate]. }
  exists {| projection_period_months := months; projections := entries |}.
  assert (Hreport : result (project_revenue now months) self =
                    Returned {| projection_period_months := months; projections := entries |})
    by (unfold result; now rewrite Hrun).
  split; [exact Hreport|].
  intros m Hm.
  assert (Hterm : forall p, In p (PyDict.values (products self)) ->
            (Q2Qc 0 <= monthly_recurring_revenue p * Exact.Qc_pow (spec_churn_factor p) m)%Qc /\
            (monthly_recurring_revenue p * Exact.Qc_pow (spec_churn_factor p) (m + 1)
               <= monthly_recurring_revenue p * Exact.Qc_pow (spec_churn_factor p) m)%Qc /\
            (monthly_recurring_revenue p * Exact.Qc_pow (spec_churn_factor p) m
               <= monthly_recurring_revenue p)%Qc).
  { intros p Hp. destruct (Hranges p Hp) as (Hmrr & Hchurn0 & Hchurn100).
    destruct (keep_factor_range (churn_rate p) Hchurn0 Hchurn100) as [Hq0 Hq1].
    assert (Hm1 : 1 <= m) by lia.
    destruct (Qc_pow_range _ m Hq0 Hq1 Hm1) as (Hpow0 & Hpow1 & Hstep).
    unfold spec_churn_factor.
    change (@fsub Qc _) with Qcminus. change (@fdiv Qc _) with Qcdiv.
    change (@of_int Qc _) with Exact.Qc_of_int.
    split; [|split].
    - rewrite <- (Qcmult_0_l (Exact.Qc_pow
                    (Exact.Qc_of_int 1 - churn_rate p / Exact.Qc_of_int 100) m)).
      now apply Qcmult_le_compat_r.
    - now apply Qcmult_le_compat_l.
    - rewrite <- (Qcmult_1_r (monthly_recurring_revenue p)) at 2.
      now apply Qcmult_le_compat_l. }
  eexists. eexists.
  split; [apply exact_projected_total|]. split; [apply exact_projected_total|].
  split; [|split; [|split]].
  - destruct (project_revenue_entry self now months _ m Hreport Hm) as [e [Hnth He]].
    cbn [projections] in Hnth |- *. rewrite Hnth. cbn [option_map].
    unfold projection_entry in He. rewrite exact_projected_total in He.
    destruct (plus_days now (30 * m)); [|discriminate].
    now injection He as <-.
  - apply sum_nonneg; [apply Qcle_refl | intros p Hp; apply (Hterm p Hp)].
  - apply sum_le; [apply Qcle_refl | intros p Hp; apply (Hterm p Hp)].
  - unfold spec_total_mrr, py_sum, py_sum_with.
    change (@fadd Qc _) with Qcplus. change (@of_int Qc _ 0) with (Q2Qc 0).
    rewrite <- (map_id (map monthly_recurring_revenue (PyDict.values (products self)))).
    rewrite map_map.
    apply (sum_le (fun p => Qcmult (monthly_recurring_revenue p)
                                   (Exact.Qc_pow (spec_churn_factor p) m))
                  (fun p => monthly_recurring_revenue p));
      [apply Qcle_refl | intros p Hp; apply (Hterm p Hp)].
Qed.

(** ** The properties at concrete ledgers *)

(** The portfolio summary and the first projection of the example ledger,
    in exact arithmetic. *)
Example example_portfolio_summary :
  let summary := result get_portfolio_summary example_ledger in
  (total_products summary, total_mrr summary, total_arr summary,
   total_active_customers summary, average_churn_rate summary) =
  (2, "$64,500.00", "$774,000.00", 2050, "4.30%").
Proof. vm_compute. reflexivity. Qed.

Example example_first_projection :
  option_map
    (fun report =>
       option_map (fun e => (month e, projected_mrr e, projected_arr e))
         (nth_error (projections report) 0))
    (returned (result (project_revenue 0 default_months) example_ledger)) =
  Some (Some (1, "$61,886.45", "$742,637.36")).
Proof. vm_compute. reflexivity. Qed.

(** Dates of [datetime]: the ordinals of some days, the first projection
    date of the example and the last one that exists. *)
Example example_ord2ymd :
  map Datetime.ord2ymd
    [1; 59; 60; 365; 366; 1461; 1462; 36524; 36525; 146097; 146098; 547033; 693596;
     730120; 738000; 739923; 998096; 1551705; 2282663; 2485717; 2533025; 3652059] =
  [(1, 1, 1); (1, 2, 28); (1, 3, 1); (1, 12, 31); (2, 1, 1); (4, 12, 31); (5, 1, 1);
   (100, 12, 31); (101, 1, 1); (400, 12, 31); (401, 1, 1); (1498, 9, 22); (1900, 1, 1);
   (2000, 1, 1); (2021, 7, 29); (2026, 11, 3); (2733, 9, 11); (4249, 6, 4); (6250, 9, 20);
   (6806, 8, 30); (6936, 3, 9); (9999, 12, 31)].
Proof. vm_compute. reflexivity. Qed.

Example example_projection_dates :
  (isoformat Datetime.example_now,
   option_map isoformat (plus_days Datetime.example_now (30 * 1)),
   option_map isoformat (plus_days Datetime.example_now (30 * 12)),
   option_map isoformat (plus_days Datetime.example_now (30 * 97071)),
   option_map isoformat (plus_days Datetime.example_now (30 * 97072)),
   isoformat {| Datetime.ordinal := 739923; Datetime.microsecond_of_day := 3723000000 |}) =
  ("2026-11-03T11:11:11.123456",
   Some "2026-12-03T11:11:11.123456",
   Some "2027-10-29T11:11:11.123456",
   Some "9999-12-25T11:11:11.123456",
   None,
   "2026-11-03T01:02:03").
Proof. vm_compute. reflexivity. Qed.

(** The range of binary64: the largest int that converts to a float, and
    the largest quotient. *)
Example example_float_range :
  (Binary64.float_of_int (2 ^ 1024 - 2 ^ 970 - 1),
   Binary64.float_of_int (2 ^ 1024 - 2 ^ 970),
   Binary64.true_divide (2 * (2 ^ 1024 - 2 ^ 970) - 1) 2,
   Binary64.true_divide (2 * (2 ^ 1024 - 2 ^ 970)) 2,
   Binary64.float_of_int (2 ^ 53 + 1),
   Binary64.float_of_int (- (2 ^ 60 + 2 ^ 7 + 1))) =
  (Some 0x1.fffffffffffffp+1023%float, None,
   Some 0x1.fffffffffffffp+1023%float, None,
   Some 9007199254740992%float, Some (-1152921504606847232)%float).
Proof. vm_compute. reflexivity. Qed.

(** A power beyond the float range: after
    [calculate_churn_rate(p, -1, -(10**30))] the churn rate of [p] is
    [-1e32] (in hexadecimal below), and the projection of month 11
    raises. *)
Example example_projection_overflows (fmt : PyFormat float) :
  let pow := Binary64.binary64_pow Binary64.repeated_product in
  let ledger :=
    final
      (register_product "p" "P" 9%float 99%float 14500%float ;;;
       calculate_churn_rate "p" (-1) (- (10 ^ 30)) default_period_days)%py
      example_float_ledger in
  option_map churn_rate (PyDict.get "p" (products ledger)) = Some (-0x1.3b8b5b5056e17p+106)%float /\
  result (project_revenue 0 12) ledger = Raised OverflowError.
Proof.
  intros pow ledger. split; [vm_compute; reflexivity|].
  unfold result.
  rewrite (project_revenue_raises ledger 0 12 11); [reflexivity | lia |].
  unfold projection_entry.
  replace (spec_projected_total ledger 11) with (@None float) by (vm_compute; reflexivity).
  reflexivity.
Qed.

Lemma repeated_product_one (n : Z) :
  Binary64.float_of_int n <> None -> Binary64.repeated_product 1 n = Some 1%float.
Proof.
  intros _.
  assert (Hiter : forall k, Pos.iter (PrimFloat.mul 1) 1%float k = 1%float).
  { intros k. apply Pos.iter_invariant; [|reflexivity].
    intros x ->. reflexivity. }
  unfold Binary64.repeated_product.
  destruct n as [|k|k]; rewrite ?Hiter; reflexivity.
Qed.

(** In exact arithmetic with days as integers every month can be
    projected. *)
Lemma exact_days_projectable (self : @QuantumRevenueEngine Qc Z) (now m : Z) :
  projectable self now m.
Proof. split; [discriminate | intros p _; discriminate]. Qed.

Lemma project_revenue_projects_each_month_witness :
  1 <= 12 /\
  (exists report,
     result (project_revenue 0 12) example_ledger = Returned report /\
     Z.of_nat (List.length (projections report)) = 12 /\
     StronglySorted Z.lt (map month (projections report))) /\
  (forall (p : @ProductRevenue Qc) m, churn_rate p = of_int 0 ->
     spec_projected_mrr_for_product p m = Some (monthly_recurring_revenue p)) /\
  @spec_projected_mrr_for_product float Binary64.binary64_arith
     (Binary64.binary64_pow Binary64.repeated_product) example_float_product 7 =
  Some 14500.5%float.
Proof.
  assert (H : 1 <= 12) by lia.
  pose proof (project_revenue_projects_each_month example_ledger 0 12 H) as P.
  destruct P as (Hreturns & _ & Hdecay & Hfloat).
  destruct (Hreturns (fun m _ => exact_days_projectable example_ledger 0 m))
    as (report & Hreport & _ & Hlen & _ & _ & Hsorted).
  split; [exact H|]. split; [|split].
  - exists report. split; [exact Hreport|]. split; [exact Hlen | exact Hsorted].
  - intros p m Hchurn. apply (Hdecay exact_no_decay p m Hchurn). discriminate.
  - apply (Hfloat Binary64.repeated_product example_float_product 7
             repeated_product_one eq_refl).
    vm_compute. discriminate.
Defined.

(** At 2026-11-03, month 97072 would be in the year 10000:
    [project_revenue(97072)] raises OverflowError and returns no entries. *)
Lemma project_revenue_raises_past_year_9999 :
  1 <= 97072 /\
  result (project_revenue Datetime.example_now 97072) example_dated_ledger =
  Raised OverflowError.
Proof.
  split; [lia|].
  assert (Hdate : plus_days Datetime.example_now (30 * 97072) = None)
    by (vm_compute; reflexivity).
  assert (Hentry : projection_entry example_dated_ledger Datetime.example_now 97072 = None).
  { unfold projection_entry. rewrite Hdate. reflexivity. }
  assert (Hmonth : 1 <= 97072 <= 97072) by lia.
  pose proof (project_revenue_raises example_dated_ledger Datetime.example_now
                97072 97072 Hmonth Hentry) as Hraises.
  unfold result. rewrite Hraises. reflexivity.
Qed.

Lemma calculate_churn_rate_value_witness :
  result (calculate_churn_rate "mesh-messenger" 0 2000 30) example_ledger =
    Returned (Exact.Qc_of_int 0) /\
  result (calculate_churn_rate "mesh-messenger" 2100 2000 30) example_ledger =
    Returned (Qcmult (Qcdiv (Exact.Qc_of_int 100) (Exact.Qc_of_int 2100))
                (Exact.Qc_of_int 100)).
Proof.
  pose proof (calculate_churn_rate_value example_ledger "mesh-messenger" 0 2000 30) as Hzero.
  pose proof (calculate_churn_rate_value example_ledger "mesh-messenger" 2100 2000 30) as Hrate.
  split.
  - exact (proj1 Hzero eq_refl).
  - refine (proj1 (proj2 Hrate) _ _ eq_refl). discriminate.
Defined.

(** On binary64 floats, with 1 previous customer and [-(10**400)] current
    ones the quotient is beyond the float range: [calculate_churn_rate]
    raises OverflowError and returns no rate. *)
Lemma calculate_churn_rate_raises_on_huge_quotient :
  1 <> 0 /\
  result (calculate_churn_rate "p" 1 (- (10 ^ 400)) 30) example_float_ledger =
  Raised OverflowError.
Proof. split; [discriminate | vm_compute; reflexivity]. Qed.

Lemma record_transaction_absent_or_appended_witness :
  record_transaction 7 "unregistered" (Exact.Qc_of_int 5) MARKETPLACE example_ledger
    = (false, example_ledger) /\
  result (record_transaction 7 "mesh-messenger" (Exact.Qc_of_int (-5)) default_stream_type)
    example_ledger = true /\
  List.length (total_revenue_history
    (final (record_transaction 7 "mesh-messenger" (Exact.Qc_of_int (-5)) default_stream_type)
       example_ledger)) = 1%nat.
Proof.
  split.
  - apply (proj1 (record_transaction_absent_or_appended
      example_ledger 7 "unregistered" (Exact.Qc_of_int 5) MARKETPLACE)).
    reflexivity.
  - edestruct (proj2 (record_transaction_absent_or_appended
      example_ledger 7 "mesh-messenger" (Exact.Qc_of_int (-5)) default_stream_type))
      as (Htrue & _ & _ & _ & _ & Hlen & _).
    + reflexivity.
    + split; [exact Htrue | exact Hlen].
Defined.


Lemma calculate_ltv_value_and_store_witness :
  result (calculate_ltv "mesh-messenger" (Exact.Qc_of_int 3) 5) example_ledger =
    Returned (Qcmult (Exact.Qc_of_int 3) (Exact.Qc_of_int 5)) /\
  option_map lifetime_value
    (PyDict.get "mesh-messenger"
       (products (final (calculate_ltv "mesh-messenger" (Exact.Qc_of_int 3) 5) example_ledger)))
    = Some (Qcmult (Exact.Qc_of_int 3) (Exact.Qc_of_int 5)) /\
  final (calculate_ltv "unregistered" (Exact.Qc_of_int 3) 5) example_ledger = example_ledger.
Proof.
  pose proof (calculate_ltv_value_and_store example_ledger "mesh-messenger"
                (Exact.Qc_of_int 3) 5) as Hreg.
  pose proof (calculate_ltv_value_and_store example_ledger "unregistered"
                (Exact.Qc_of_int 3) 5) as Hunreg.
  cbv zeta in Hreg, Hunreg.
  destruct Hreg as (Hreg & _). destruct Hunreg as (Hunreg & _).
  destruct (Hreg (Exact.Qc_of_int 5) eq_refl) as (Hvalue & Hstore & _).
  destruct (Hunreg (Exact.Qc_of_int 5) eq_refl) as (_ & _ & Hsame).
  split; [exact Hvalue|]. split.
  - edestruct Hstore as (Hget & _); [reflexivity|]. rewrite Hget. reflexivity.
  - apply Hsame. reflexivity.
Defined.

(** On binary64 floats, a lifespan of [10**400] months does not convert to
    a float: [calculate_ltv] raises OverflowError and returns no value. *)
Lemma calculate_ltv_raises_on_huge_lifespan :
  result (calculate_ltv "p" 72.5%float (10 ^ 400)) example_float_ledger =
  Raised OverflowError.
Proof. vm_compute. reflexivity. Qed.

Lemma calculate_churn_rate_zero_previous_no_store_witness :
  PyDict.contains "governance-platform" (products example_ledger) = true /\
  PyDict.get "governance-platform"
    (products (final (calculate_churn_rate "governance-platform" 0 50 30) example_ledger))
  = PyDict.get "governance-platform" (products example_ledger).
Proof.
  split; [reflexivity|].
  pose proof (proj2 (calculate_churn_rate_zero_previous_no_store
                       example_ledger "governance-platform" 50 30)) as Hkept.
  destruct (PyDict.get "governance-platform" (products example_ledger)) as [p|] eqn:E.
  - exact (Hkept p eq_refl).
  - cbv in E. discriminate E.
Defined.

Lemma register_product_frame_witness :
  PyDict.get "governance-platform"
    (products (final (register_product "mesh-messenger" "again" (Exact.Qc_of_int 1)
                        (Exact.Qc_of_int 2) (Exact.Qc_of_int 3)) example_ledger))
  = PyDict.get "governance-platform" (products example_ledger).
Proof.
  refine (proj1 (proj2 (proj2 (register_product_frame example_ledger "mesh-messenger" "again"
            (Exact.Qc_of_int 1) (Exact.Qc_of_int 2) (Exact.Qc_of_int 3)))) _ _).
  discriminate.
Defined.

Lemma calculate_churn_rate_stores_witness :
  2100 <> 0 /\
  exists rate,
    result (calculate_churn_rate "mesh-messenger" 2100 1050 30) example_ledger =
      Returned rate /\
    option_map churn_rate
      (PyDict.get "mesh-messenger"
         (products (final (calculate_churn_rate "mesh-messenger" 2100 1050 30) example_ledger)))
    = Some rate.
Proof.
  assert (Hne : 2100 <> 0) by discriminate.
  split; [exact Hne|].
  pose proof (calculate_churn_rate_stores example_ledger "mesh-messenger" 2100 1050 30 Hne)
    as Hstore.
  cbv zeta in Hstore. destruct Hstore as [Hreturned _].
  eexists. split; [reflexivity|].
  destruct (Hreturned _ eq_refl) as [Hreg _].
  destruct (PyDict.get "mesh-messenger" (products example_ledger)) as [p|] eqn:E.
  - destruct (Hreg p eq_refl) as (Hget & _). rewrite Hget. reflexivity.
  - cbv in E. discriminate E.
Defined.

Lemma example_ledger_reachable : reachable example_ledger.
Proof.
  change example_ledger with
    (after (CalculateLtv "governance-platform" (Exact.Qc_of_int 1000) default_lifespan_months)
    (after (CalculateLtv "mesh-messenger" (Qcdiv (Exact.Qc_of_int 725) (Exact.Qc_of_int 10))
              default_lifespan_months)
    (after (CalculateChurnRate "governance-platform" 52 50 default_period_days)
    (after (CalculateChurnRate "mesh-messenger" 2100 2000 default_period_days)
    (after (UpdateCustomerCount "governance-platform" 50)
    (after (UpdateCustomerCount "mesh-messenger" 2000)
    (after (RegisterProduct "governance-platform" "Zero-Human AI Governance Platform"
              (Exact.Qc_of_int 299) (Exact.Qc_of_int 1999) (Exact.Qc_of_int 50000))
    (after (RegisterProduct "mesh-messenger" "Zero-Human Mesh Messenger"
              (Exact.Qc_of_int 9) (Exact.Qc_of_int 99) (Exact.Qc_of_int 14500))
       (init 0))))))))).
  repeat constructor.
Qed.

Lemma reachable_ledger_invariant_witness :
  reachable example_ledger /\ PyDict.keys (products example_ledger)
    = ["mesh-messenger"; "governance-platform"] /\ ledger_invariant example_ledger.
Proof.
  split; [exact example_ledger_reachable|]. split; [reflexivity|].
  exact (reachable_ledger_invariant example_ledger example_ledger_reachable).
Defined.

Lemma reachable_after_all {F T : Type} {arith : PyArith F} {power : PyPow F}
  {fmt : PyFormat F} {clock : PyClock T} (cs : list (@Call F T)) self :
  reachable self -> reachable (after_all cs self).
Proof.
  revert self. induction cs as [|c cs IH]; intros self Hreach; [exact Hreach|].
  apply IH. now constructor.
Qed.

Lemma example_ledger_relaunched_reachable : reachable example_ledger_relaunched.
Proof. repeat apply reachable_after_all. exact example_ledger_reachable. Qed.

Example example_relaunched_histories :
  (List.length (total_revenue_history example_ledger_relaunched),
   option_map (fun p => List.length (revenue_history p))
     (PyDict.get "mesh-messenger" (products example_ledger_relaunched))) =
  (4%nat, Some 1%nat).
Proof. vm_compute. reflexivity. Qed.

Example example_recorded_revenue :
  option_map summary_total_recorded_revenue
    (result (get_product_summary "mesh-messenger") example_ledger_with_sales) =
  Some "$151.50".
Proof. vm_compute. reflexivity. Qed.

Lemma product_history_is_recent_global_history_witness :
  reachable example_ledger_relaunched /\
  exists p older,
    PyDict.get "mesh-messenger" (products example_ledger_relaunched) = Some p /\
    metrics_of "mesh-messenger" (total_revenue_history example_ledger_relaunched) =
      (older ++ revenue_history p)%list.
Proof.
  split; [exact example_ledger_relaunched_reachable|].
  destruct (PyDict.get "mesh-messenger" (products example_ledger_relaunched)) as [p|] eqn:E.
  - destruct (product_history_is_recent_global_history example_ledger_relaunched
                example_ledger_relaunched_reachable "mesh-messenger" p E) as [older Holder].
    exists p, older. split; [reflexivity | exact Holder].
  - cbv in E. discriminate E.
Defined.

Lemma global_history_sources_registered_witness :
  reachable example_ledger_relaunched /\
  forall m, In m (total_revenue_history example_ledger_relaunched) ->
    currency m = "USD" /\
    PyDict.contains (source_product m) (products example_ledger_relaunched) = true.
Proof.
  split; [exact example_ledger_relaunched_reachable|].
  exact (global_history_sources_registered example_ledger_relaunched
           example_ledger_relaunched_reachable).
Defined.

Lemma update_customer_count_adjusts_total_witness :
  exists p,
    PyDict.get "mesh-messenger" (products example_ledger) = Some p /\
    total_active_customers
      (result get_portfolio_summary
         (final (update_customer_count "mesh-messenger" 2500) example_ledger)) =
    total_active_customers (result get_portfolio_summary example_ledger)
      - active_customers p + 2500.
Proof.
  destruct (PyDict.get "mesh-messenger" (products example_ledger)) as [p|] eqn:E.
  - exists p. split; [reflexivity|].
    exact (update_customer_count_adjusts_total example_ledger "mesh-messenger" 2500 p E).
  - cbv in E. discriminate E.
Defined.

Lemma total_mrr_changes_only_by_registration_witness :
  registers (RecordTransaction 9 "mesh-messenger" (Exact.Qc_of_int 49) MARKETPLACE) = false /\
  total_mrr (result get_portfolio_summary
    (after (RecordTransaction 9 "mesh-messenger" (Exact.Qc_of_int 49) MARKETPLACE)
       example_ledger)) =
  total_mrr (result get_portfolio_summary example_ledger).
Proof.
  split; [reflexivity|].
  exact (proj1 (total_mrr_changes_only_by_registration
                  (RecordTransaction 9 "mesh-messenger" (Exact.Qc_of_int 49) MARKETPLACE)
                  example_ledger eq_refl)).
Defined.

Lemma projections_ignore_other_calls_witness :
  touches_projection (UpdateCustomerCount (F:=Qc) (T:=Z) "governance-platform" 75) = false /\
  result (project_revenue 0 12)
    (after (UpdateCustomerCount "governance-platform" 75) example_ledger_with_sales) =
  result (project_revenue 0 12) example_ledger_with_sales.
Proof.
  split; [reflexivity|].
  exact (projections_ignore_other_calls (UpdateCustomerCount "governance-platform" 75)
           example_ledger_with_sales 0 12 eq_refl).
Defined.

Lemma attribute_updates_commute_witness :
  let c := UpdateCustomerCount (F:=Qc) (T:=Z) "mesh-messenger" 2500 in
  let c' := CalculateChurnRate (F:=Qc) (T:=Z) "mesh-messenger" 2500 2400 30 in
  assigns c = Some ("mesh-messenger", ActiveCustomers) /\
  assigns c' = Some ("mesh-messenger", ChurnRate) /\
  after c (after c' example_ledger) = after c' (after c example_ledger).
Proof.
  intros c c'.
  assert (Hc : assigns c = Some ("mesh-messenger", ActiveCustomers)) by reflexivity.
  assert (Hc' : assigns c' = Some ("mesh-messenger", ChurnRate)) by reflexivity.
  split; [exact Hc|]. split; [exact Hc'|].
  apply (attribute_updates_commute c c' ("mesh-messenger", ActiveCustomers)
           ("mesh-messenger", ChurnRate) example_ledger Hc Hc').
  discriminate.
Defined.

Lemma recorded_revenue_accumulates_witness :
  exists p,
    PyDict.get "mesh-messenger" (products example_ledger) = Some p /\
    total_revenue_history example_ledger_with_sales =
      (total_revenue_history example_ledger
         ++ recorded_metrics "mesh-messenger" example_sales)%list.
Proof.
  destruct (PyDict.get "mesh-messenger" (products example_ledger)) as [p|] eqn:E.
  - exists p. split; [reflexivity|].
    exact (proj1 (proj2 (recorded_revenue_accumulates example_sales example_ledger
                           "mesh-messenger" p E))).
  - cbv in E. discriminate E.
Defined.

Lemma project_revenue_shorter_is_prefix_witness :
  3 <= 12 /\
  exists report,
    result (project_revenue 0 12) example_ledger = Returned report /\
    result (project_revenue 0 3) example_ledger =
    Returned {| projection_period_months := 3;
                projections := firstn 3 (projections report) |}.
Proof.
  assert (H : 3 <= 12) by lia.
  split; [exact H|].
  destruct (project_revenue_returns example_ledger 0 12
              (fun m _ => exact_days_projectable example_ledger 0 m)) as [entries [Hrun _]].
  exists {| projection_period_months := 12; projections := entries |}.
  assert (Hlonger : result (project_revenue 0 12) example_ledger =
                    Returned {| projection_period_months := 12; projections := entries |})
    by (unfold result; now rewrite Hrun).
  split; [exact Hlonger|].
  exact (proj1 (project_revenue_shorter_is_prefix example_ledger 0 3 12 H) _ Hlonger).
Defined.

Lemma portfolio_lists_every_product_witness :
  reachable example_ledger_relaunched /\
  map (option_map summary_product_id)
    (portfolio (result get_portfolio_summary example_ledger_relaunched)) =
  map Some (PyDict.keys (products example_ledger_relaunched)).
Proof.
  split; [exact example_ledger_relaunched_reachable|].
  exact (proj2 (portfolio_lists_every_product example_ledger_relaunched
                  example_ledger_relaunched_reachable)).
Defined.

Lemma exact_churn_rate_within_0_100_witness :
  0 < 2100 /\ 0 <= 2000 /\
  exists rate : Qc,
    result (calculate_churn_rate "mesh-messenger" 2100 2000 30) example_ledger =
      Returned rate /\
    (Exact.Qc_of_int 0 <= rate)%Qc /\ (rate <= Exact.Qc_of_int 100)%Qc.
Proof.
  assert (H : 0 < 2100) by lia. assert (H' : 0 <= 2000) by lia.
  destruct (exact_churn_rate_within_0_100 example_ledger "mesh-messenger" 2100 2000 30 H H')
    as (rate & Hrate & Hlow & Hhigh & _).
  split; [exact H|]. split; [exact H'|].
  exists rate. split; [exact Hrate|]. split; [exact Hlow | exact Hhigh].
Defined.

Lemma example_ledger_within_ranges :
  forall p, In p (PyDict.values (products example_ledger)) -> within_ranges p.
Proof.
  intros p Hp. cbv in Hp. destruct Hp as [<-|[<-|[]]];
    unfold within_ranges, Qcle, Qle; cbn; repeat split; lia.
Qed.

Lemma exact_projection_never_grows_witness :
  exists report (total next : Qc),
    result (project_revenue 0 3) example_ledger = Returned report /\
    spec_projected_total example_ledger 3 = Some total /\
    spec_projected_total example_ledger (3 + 1) = Some next /\
    option_map projected_mrr (nth_error (projections report) 2) =
      Some ("$" ++ format_comma_2f total) /\
    (next <= total)%Qc /\
    (total <= spec_total_mrr example_ledger)%Qc.
Proof.
  destruct (exact_projection_never_grows example_ledger 0 3 example_ledger_within_ranges)
    as (report & Hreport & Hmonths).
  { intros m _. discriminate. }
  destruct (Hmonths 3) as (total & next & Htotal & Hnext & Hshown & _ & Hstep & Hbound);
    [lia|].
  exists report, total, next.
  split; [exact Hreport|]. split; [exact Htotal|]. split; [exact Hnext|].
  split; [exact Hshown|]. split; [exact Hstep | exact Hbound].
Defined.
